(** * BibTeX-Check: a shallow embedding of [bibtex_check.py]

    The script reads an optional [.aux] file into the set [used_cits],
    then walks the [.bib] file line by line, mutating a handful of
    module-level variables, and finally sorts and writes the collected
    problem entries.  The embedding keeps that shape:

    - Python [str] values are [string]s holding the UTF-8 bytes of the
      text (the files are opened with [encoding="utf8"]); substring
      search, splitting, replacing and code-point ordering agree on
      UTF-8 bytes and on code points;
    - the dictionary [requiredFields] is a [gmap], the set [used_cits]
      a [gset], the lists [citations], [fields], [subproblems] and
      [problems] are lists;
    - the module-level variables form the record [state], threaded
      through the loop body [step];
    - an uncaught Python exception is the outcome [Raise], a loop that
      does not stop is the outcome [Diverge] (fuel exhausted);
    - [print] calls change no variable and are left out.

    The built-in string methods are modelled on the ASCII range:
    [lower] folds [A-Z], [strip ()] removes the ASCII white space
    characters and [int] reads ASCII digits.  Bytes above 127 are left
    untouched by them. *)

From Stdlib Require Import ZArith Ascii String DecimalString.
From stdpp Require Import gmap strings list fin_maps sorting.

Open Scope string_scope.

(** ** Python string primitives *)

Module Py.

Definition nl : ascii := "010"%char.
Definition dquote : ascii := "034"%char.
Definition str (c : ascii) : string := String c "".

(** [c in chars] for a one-character [c]. *)
Definition char_in (c : ascii) (chars : string) : bool :=
  existsb (Ascii.eqb c) (list_ascii_of_string chars).

(** [s.startswith(p)] *)
Definition startswith (s p : string) : bool := String.prefix p s.

(** [sub in s] *)
Fixpoint contains (sub s : string) : bool :=
  String.prefix sub s ||
  match s with
  | "" => false
  | String _ s' => contains sub s'
  end.

(** [s.lstrip(chars)], [s.rstrip(chars)], [s.strip(chars)] *)
Fixpoint lstrip (chars s : string) : string :=
  match s with
  | "" => ""
  | String c s' => if char_in c chars then lstrip chars s' else s
  end.

Fixpoint rstrip (chars s : string) : string :=
  match s with
  | "" => ""
  | String c s' =>
      match rstrip chars s' with
      | "" => if char_in c chars then "" else str c
      | r => String c r
      end
  end.

Definition strip (chars s : string) : string := lstrip chars (rstrip chars s).

(** The characters removed by [s.strip()] without argument: tab, line
    feed, vertical tab, form feed, carriage return, the four separator
    controls 28-31 and the space. *)
Definition whitespace : string :=
  String "009" (String "010" (String "011" (String "012" (String "013"
  (String "028" (String "029" (String "030" (String "031" " ")))))))).

Definition strip_ws (s : string) : string := strip whitespace s.

(** [s.lower()] *)
Definition is_upper (c : ascii) : bool :=
  ((65 <=? nat_of_ascii c) && (nat_of_ascii c <=? 90))%nat.

Definition lower_char (c : ascii) : ascii :=
  if is_upper c then ascii_of_nat (nat_of_ascii c + 32) else c.

Fixpoint lower (s : string) : string :=
  match s with
  | "" => ""
  | String c s' => String (lower_char c) (lower s')
  end.

(** [s.split(sep)] for a non-empty [sep]: the pieces between the
    leftmost non-overlapping occurrences of [sep].  [skip] counts the
    characters of a separator that has just been recognised and still
    has to be passed over. *)
Fixpoint split_from (sep : string) (skip : nat) (s : string) : list string :=
  match s with
  | "" => [""]
  | String c s' =>
      match skip with
      | S k => split_from sep k s'
      | O =>
          if String.prefix sep s
          then "" :: split_from sep (String.length sep - 1) s'
          else match split_from sep 0 s' with
               | piece :: rest => String c piece :: rest
               | [] => [str c]
               end
      end
  end.

Definition split (sep s : string) : list string := split_from sep 0 s.

(** [sep.join(l)] and [s.replace(old, new)], [s.count(sub)] *)
Definition join (sep : string) (l : list string) : string := String.concat sep l.

Definition replace (old new s : string) : string := join new (split old s).

Definition count (sub s : string) : nat := (length (split sub s) - 1)%nat.

(** Removal of every character of [chars], as done by
    [s.translate(m)] with [m] mapping these characters to [None] and by
    [re.sub('[...]', '', s)] on a character class. *)
Fixpoint remove_chars (chars s : string) : string :=
  match s with
  | "" => ""
  | String c s' =>
      if char_in c chars then remove_chars chars s'
      else String c (remove_chars chars s')
  end.

(** [string.punctuation] *)
Definition punctuation : string :=
  "!" ++ str dquote ++ "#$%&'()*+,-./:;<=>?@[\]^_`{|}~".

(** [str(n)] for a non-negative integer *)
Definition str_of_nat (n : nat) : string := NilZero.string_of_uint (Nat.to_uint n).
Definition str_of_Z (z : Z) : string := NilZero.string_of_int (Z.to_int z).

(** [int(s)]: optional white space around, an optional sign, then
    decimal digits in which single underscores may separate digits.
    [None] stands for [ValueError]. *)
Definition is_digit (c : ascii) : bool :=
  ((48 <=? nat_of_ascii c) && (nat_of_ascii c <=? 57))%nat.

Fixpoint digits (acc : Z) (after_digit : bool) (s : string) : option Z :=
  match s with
  | "" => if after_digit then Some acc else None
  | String c s' =>
      if is_digit c
      then digits (10 * acc + Z.of_nat (nat_of_ascii c - 48)) true s'
      else if Ascii.eqb c "_" && after_digit then
        match s' with
        | "" => None
        | String d _ => if is_digit d then digits acc false s' else None
        end
      else None
  end.

Definition int (s : string) : option Z :=
  match strip_ws s with
  | String "-" r => Z.opp <$> digits 0 false r
  | String "+" r => digits 0 false r
  | r => digits 0 false r
  end.

(** [all(p(c) for c in s)] *)
Fixpoint all_chars (p : ascii -> bool) (s : string) : bool :=
  match s with
  | "" => true
  | String c s' => p c && all_chars p s'
  end.

(** Only bytes below 128. *)
Definition is_ascii_char (c : ascii) : bool := (nat_of_ascii c <? 128)%nat.
Definition is_ascii (s : string) : bool := all_chars is_ascii_char s.

(** No letter of [A-Z]. *)
Definition no_upper (s : string) : bool := all_chars (fun c => negb (is_upper c)) s.

(** No character of [chars]. *)
Definition free_of (chars s : string) : bool :=
  all_chars (fun c => negb (char_in c chars)) s.

End Py.


(** ** Outcomes of running Python code *)

Inductive exn : Set := IndexError | KeyError | NameError.

Inductive outcome (A : Type) : Type :=
| Ok (a : A)
| Raise (e : exn)
| Diverge.
Arguments Ok {A} a.
Arguments Raise {A} e.
Arguments Diverge {A}.

#[global] Instance outcome_bind : MBind outcome := fun A B k m =>
  match m with
  | Ok a => k a
  | Raise e => Raise e
  | Diverge => Diverge
  end.

(** ** The three library calls the script relies on

    [datetime.now().year], [unidecode.unidecode] and
    [dateutil.parser.parse] are not part of the repository.  They are an
    interface; of [unidecode] the development uses what its
    documentation promises: the result is ASCII, and ASCII text is
    returned as it is. *)

Class Env : Type := {
  now_year : Z;
  unidecode : string -> string;
  (** [true] when [dateutil.parser.parse] returns a date, [false] when
      it raises [ValueError] *)
  dateutil_parse : string -> bool;
  unidecode_ascii : forall s, Py.is_ascii (unidecode s) = true;
  unidecode_id : forall s, Py.is_ascii s = true -> unidecode s = s
}.

(** ** Properties (the module-level constants) *)

Definition citeulikeUsername : string := "".
Definition citeulikeHref : string :=
  "http://www.citeulike.org/user/" ++ citeulikeUsername ++ "/article/".
Definition scholarHref : string := "http://scholar.google.de/scholar?hl=en&q=".
Definition googleHref : string := "https://duckduckgo.com/?q=".
Definition dblpHref : string := "http://dblp.org/search/index.php#query=".

(** A value of [requiredFields]: a list of field requirements, or a
    string naming another entry type. *)
Inductive requirement : Type :=
| FieldList (l : list string)
| AliasOf (t : string).

Definition requiredFields : gmap string requirement :=
  list_to_map [
    ("article", FieldList ["author"; "title"; "journal"; "year"; "volume"]);
    ("book", FieldList ["author/editor"; "title"; "publisher"; "year"]);
    ("booklet", FieldList ["author/editor"; "title"; "year"; "howpublished"]);
    ("conference", AliasOf "inproceedings");
    ("inbook", FieldList ["author/editor"; "title"; "chapter/pages"; "publisher"; "year"]);
    ("incollection", FieldList ["author"; "title"; "booktitle"; "publisher"; "year"]);
    ("inproceedings", FieldList ["author"; "title"; "booktitle"; "year"]);
    ("manual", FieldList ["title"; "year"]);
    ("mastersthesis", FieldList ["author"; "title"; "school"; "year"]);
    ("misc", FieldList ["author/organization"; "title"; "year"]);
    ("phdthesis", FieldList ["author"; "title"; "school"; "year"]);
    ("proceedings", FieldList ["title"; "year"]);
    ("techreport", FieldList ["author"; "title"; "institution"; "year"]);
    ("unpublished", FieldList ["author"; "title"; "note"; "year"]);
    ("electronic", FieldList ["author/organization"; "title"; "url"; "year"]);
    ("standard", FieldList ["title"; "organization/institution"]);
    ("patent", FieldList ["nationality"; "number"; "year/yearfiled"])
  ].

(** ** The usage set (lines 86-98)

    [aux] is [None] when opening the file raises [IOError]; the set is
    then empty.  A citation line without an opening brace makes
    [line.split("{")[1]] raise [IndexError], which the handler for
    [IOError] does not catch. *)

Definition citation_line (used_cits : gset string) (line : string) : outcome (gset string) :=
  if Py.startswith line "\citation" then
    match Py.split "{" line !! 1%nat with
    | None => Raise IndexError
    | Some grp =>
        let citations := Py.split ", " (Py.rstrip ("} " ++ Py.str Py.nl) grp) in
        Ok (fold_left (fun used cit => if String.eqb cit "" then used else {[cit]} ∪ used)
                      citations used_cits)
    end
  else Ok used_cits.

Fixpoint citation_lines (used_cits : gset string) (lines : list string) : outcome (gset string) :=
  match lines with
  | [] => Ok used_cits
  | line :: rest => used ← citation_line used_cits line; citation_lines used rest
  end.

Definition read_aux (aux : option (list string)) : outcome (gset string) :=
  match aux with
  | None => Ok ∅
  | Some lines => citation_lines ∅ lines
  end.

(** ** The module-level variables of the main loop (lines 119-136) *)

Record state : Type := mkState {
  completeEntry : string;
  currentId : string;
  citations : list string;
  currentType : string;
  currentArticleId : string;
  currentTitle : string;
  fields : list string;
  problems : list string;
  subproblems : list string;
  counterMissingFields : nat;
  counterFlawedNames : nat;
  counterWrongTypes : nat;
  counterNonUniqueId : nat;
  lineNo : nat
}.

Definition initial : state :=
  mkState "" "" [] "" "" "" [] [] [] 0 0 0 0 0.

Definition set_completeEntry (v : string) (st : state) : state :=
  mkState v (currentId st) (citations st) (currentType st) (currentArticleId st)
    (currentTitle st) (fields st) (problems st) (subproblems st)
    (counterMissingFields st) (counterFlawedNames st) (counterWrongTypes st)
    (counterNonUniqueId st) (lineNo st).

Definition set_currentId (v : string) (st : state) : state :=
  mkState (completeEntry st) v (citations st) (currentType st) (currentArticleId st)
    (currentTitle st) (fields st) (problems st) (subproblems st)
    (counterMissingFields st) (counterFlawedNames st) (counterWrongTypes st)
    (counterNonUniqueId st) (lineNo st).

Definition set_citations (v : list string) (st : state) : state :=
  mkState (completeEntry st) (currentId st) v (currentType st) (currentArticleId st)
    (currentTitle st) (fields st) (problems st) (subproblems st)
    (counterMissingFields st) (counterFlawedNames st) (counterWrongTypes st)
    (counterNonUniqueId st) (lineNo st).

Definition set_currentType (v : string) (st : state) : state :=
  mkState (completeEntry st) (currentId st) (citations st) v (currentArticleId st)
    (currentTitle st) (fields st) (problems st) (subproblems st)
    (counterMissingFields st) (counterFlawedNames st) (counterWrongTypes st)
    (counterNonUniqueId st) (lineNo st).

Definition set_currentArticleId (v : string) (st : state) : state :=
  mkState (completeEntry st) (currentId st) (citations st) (currentType st) v
    (currentTitle st) (fields st) (problems st) (subproblems st)
    (counterMissingFields st) (counterFlawedNames st) (counterWrongTypes st)
    (counterNonUniqueId st) (lineNo st).

Definition set_currentTitle (v : string) (st : state) : state :=
  mkState (completeEntry st) (currentId st) (citations st) (currentType st)
    (currentArticleId st) v (fields st) (problems st) (subproblems st)
    (counterMissingFields st) (counterFlawedNames st) (counterWrongTypes st)
    (counterNonUniqueId st) (lineNo st).

Definition set_fields (v : list string) (st : state) : state :=
  mkState (completeEntry st) (currentId st) (citations st) (currentType st)
    (currentArticleId st) (currentTitle st) v (problems st) (subproblems st)
    (counterMissingFields st) (counterFlawedNames st) (counterWrongTypes st)
    (counterNonUniqueId st) (lineNo st).

Definition set_problems (v : list string) (st : state) : state :=
  mkState (completeEntry st) (currentId st) (citations st) (currentType st)
    (currentArticleId st) (currentTitle st) (fields st) v (subproblems st)
    (counterMissingFields st) (counterFlawedNames st) (counterWrongTypes st)
    (counterNonUniqueId st) (lineNo st).

Definition set_subproblems (v : list string) (st : state) : state :=
  mkState (completeEntry st) (currentId st) (citations st) (currentType st)
    (currentArticleId st) (currentTitle st) (fields st) (problems st) v
    (counterMissingFields st) (counterFlawedNames st) (counterWrongTypes st)
    (counterNonUniqueId st) (lineNo st).

Definition set_counterMissingFields (v : nat) (st : state) : state :=
  mkState (completeEntry st) (currentId st) (citations st) (currentType st)
    (currentArticleId st) (currentTitle st) (fields st) (problems st) (subproblems st)
    v (counterFlawedNames st) (counterWrongTypes st)
    (counterNonUniqueId st) (lineNo st).

Definition set_counterFlawedNames (v : nat) (st : state) : state :=
  mkState (completeEntry st) (currentId st) (citations st) (currentType st)
    (currentArticleId st) (currentTitle st) (fields st) (problems st) (subproblems st)
    (counterMissingFields st) v (counterWrongTypes st)
    (counterNonUniqueId st) (lineNo st).

Definition set_counterWrongTypes (v : nat) (st : state) : state :=
  mkState (completeEntry st) (currentId st) (citations st) (currentType st)
    (currentArticleId st) (currentTitle st) (fields st) (problems st) (subproblems st)
    (counterMissingFields st) (counterFlawedNames st) v
    (counterNonUniqueId st) (lineNo st).

Definition set_counterNonUniqueId (v : nat) (st : state) : state :=
  mkState (completeEntry st) (currentId st) (citations st) (currentType st)
    (currentArticleId st) (currentTitle st) (fields st) (problems st) (subproblems st)
    (counterMissingFields st) (counterFlawedNames st) (counterWrongTypes st)
    v (lineNo st).

Definition set_lineNo (v : nat) (st : state) : state :=
  mkState (completeEntry st) (currentId st) (citations st) (currentType st)
    (currentArticleId st) (currentTitle st) (fields st) (problems st) (subproblems st)
    (counterMissingFields st) (counterFlawedNames st) (counterWrongTypes st)
    (counterNonUniqueId st) v.

(** [subproblems.append(msg)], alone and followed by [counter += 1]. *)
Definition append_subproblem (msg : string) (st : state) : state :=
  set_subproblems (subproblems st ++ [msg]) st.

Definition missing_field (msg : string) (st : state) : state :=
  let st := append_subproblem msg st in
  set_counterMissingFields (counterMissingFields st + 1) st.

Definition flawed_name (msg : string) (st : state) : state :=
  let st := append_subproblem msg st in
  set_counterFlawedNames (counterFlawedNames st + 1) st.

Definition wrong_type (msg : string) (st : state) : state :=
  let st := append_subproblem msg st in
  set_counterWrongTypes (counterWrongTypes st + 1) st.

Definition non_unique_id (msg : string) (st : state) : state :=
  let st := append_subproblem msg st in
  set_counterNonUniqueId (counterNonUniqueId st + 1) st.

(** [x in l] for a list of strings *)
Definition mem (x : string) (l : list string) : bool := existsb (String.eqb x) l.

(** ** The main loop (lines 137-296) *)

Section MainLoop.

Context {E : Env}.

(** [used_cits] and the possibly reconfigured [requiredFields] are
    fixed before the loop starts. *)
Variable used_cits : gset string.
Variable requiredFields : gmap string requirement.

(** [currentId in used_cits or not used_cits] (lines 142, 169, 212) *)
Definition in_scope (st : state) : bool :=
  bool_decide (currentId st ∈ used_cits) || bool_decide (used_cits = ∅).

(** *** Finalising the pending entry *)

(** Lines 145-146:
    [while isinstance(requiredFields[currentType], str):
         currentType = requiredFields[currentType]].
    [fuel] bounds the number of times the loop body runs.  The result is
    the final [currentType] with the list found under it. *)
Fixpoint resolve_type (fuel : nat) (currentType : string) : outcome (string * list string) :=
  match requiredFields !! currentType with
  | None => Raise KeyError
  | Some (FieldList l) => Ok (currentType, l)
  | Some (AliasOf t) =>
      match fuel with
      | O => Diverge
      | S n => resolve_type n t
      end
  end.

(** Line 150: [any(f in fields for f in field.split("/"))] *)
Definition any_given (fields : list string) (field : string) : bool :=
  existsb (fun f => mem f fields) (Py.split "/" field).

(** Line 151: the message [f"{currentType}: missing field '{field}'"] *)
Definition missing_message (currentType field : string) : string :=
  currentType ++ ": missing field '" ++ field ++ "'".

(** Lines 147-152 *)
Definition missing_fields (required : list string) (st : state) : state :=
  fold_left
    (fun st field =>
       if negb (any_given (fields st) field)
       then missing_field (missing_message (currentType st) field) st
       else st)
    required st.

(** Lines 142-157.  The warning printed for an unspecified entry type
    changes no variable. *)
Definition check_required (fuel : nat) (st : state) : outcome state :=
  if in_scope st then
    if bool_decide (is_Some (requiredFields !! currentType st)) then
      '(t, required) ← resolve_type fuel (currentType st);
      Ok (missing_fields required (set_currentType t st))
    else Ok st
  else Ok (set_subproblems [] st).

(** Lines 159-162 *)
Definition check_urldate (st : state) : state :=
  if mem "url" (fields st) && negb (mem "urldate" (fields st))
  then missing_field "missing field 'urldate' when 'url' is given" st
  else st.

(** Lines 164-167 *)
Definition check_url_doi (st : state) : state :=
  if mem "url" (fields st) && mem "doi" (fields st)
  then flawed_name "both 'url' and 'doi' given - only one recommended" st
  else st.

(** Lines 170-193: the HTML block of one entry. *)
Definition render_problem (st : state) : string :=
  let cleanedTitle := Py.remove_chars Py.punctuation (currentTitle st) in
  "<div id='" ++ currentId st ++ "' class='problem severe"
    ++ Py.str_of_nat (length (subproblems st)) ++ "'>"
  ++ "<h2>" ++ currentId st ++ " (" ++ currentType st ++ ")</h2> "
  ++ "<div class='links'>"
  ++ (if String.eqb citeulikeUsername "" then ""
      else "<a href='" ++ citeulikeHref ++ currentArticleId st ++ "' target='_blank'>CiteULike</a>")
  ++ " | <a href='" ++ scholarHref ++ cleanedTitle ++ "' target='_blank'>Scholar</a>"
  ++ " | <a href='" ++ googleHref ++ cleanedTitle ++ "' target='_blank'>Google</a>"
  ++ " | <a href='" ++ dblpHref ++ cleanedTitle ++ "' target='_blank'>DBLP</a>"
  ++ "</div>"
  ++ "<div class='reference'>" ++ currentTitle st ++ "</div>"
  ++ "<ul>"
  ++ String.concat "" (map (fun subproblem => "<li>" ++ subproblem ++ "</li>") (subproblems st))
  ++ "</ul>"
  ++ "<form class='problem_control'><label>checked</label><input type='checkbox' class='checked'/></form>"
  ++ "<div class='bibtex_toggle'>Current BibTeX Entry</div>"
  ++ "<div class='bibtex'>" ++ completeEntry st ++ "</div>"
  ++ "</div>".

(** Lines 169-194.  The console echo of the subproblems changes no
    variable. *)
Definition append_problem (st : state) : state :=
  if in_scope st then set_problems (problems st ++ [render_problem st]) st else st.

(** Lines 142-194: everything done for the entry that was pending when
    a line starting with [@] arrives. *)
Definition finalize (fuel : nat) (st : state) : outcome state :=
  st ← check_required fuel st;
  Ok (append_problem (check_url_doi (check_urldate st))).

(** *** Starting the next entry (lines 195-207) *)
Definition start_entry (line : string) (st : state) : outcome state :=
  let st := set_subproblems [] (set_fields [] st) in
  match Py.split "{" line !! 1%nat with
  | None => Raise IndexError
  | Some rest =>
      let st := set_currentId
                  (Py.strip_ws (Py.lower (Py.rstrip ("," ++ Py.str Py.nl) rest))) st in
      let st := if mem (currentId st) (citations st)
                then non_unique_id ("non-unique id: '" ++ currentId st ++ "'") st
                else set_citations (citations st ++ [currentId st]) st in
      let st := set_currentType
                  (Py.lower (Py.strip "@ " (hd "" (Py.split "{" line)))) st in
      let st := set_completeEntry (line ++ "<br />") st in
      Ok (if String.eqb (currentId st) ""
          then flawed_name ("line " ++ Py.str_of_nat (lineNo st) ++ ": missing bibkey for "
                              ++ currentType st ++ " found") st
          else st)
  end.

(** *** The checks on one field (lines 218-292) *)

(** Lines 218-220 *)
Definition check_null (field value : string) (st : state) : state :=
  if String.eqb value "null"
  then missing_field ("value of field " ++ field ++ " is null") st
  else st.

Definition stripped : string := "{} ," ++ Py.str Py.nl.

(** Lines 239-240: the normalisation of the first author's last name *)
Definition normalize_lastname (firstAuthorLastname : string) : string :=
  let firstAuthorLastname :=
    Py.replace "ü" "ue" (Py.replace "ö" "oe" (Py.replace "ä" "ae" firstAuthorLastname)) in
  Py.replace "'" "" (Py.replace "." "" (Py.replace " " ""
    (Py.lower (unidecode firstAuthorLastname)))).

(** Lines 234-238 *)
Definition first_author_lastname (authors : list string) : string :=
  let firstAuthor := hd "" authors in
  if Py.contains "," firstAuthor
  then Py.strip stripped (hd "" (Py.split "," firstAuthor))
  else Py.strip stripped (List.last (Py.split " " firstAuthor) "").

(** Lines 221-243.  [currentAuthor] (line 228) is never read. *)
Definition check_author (value : string) (st : state) : state :=
  let authors := Py.split " and " value in
  let st := fold_left
              (fun st a =>
                 if (1 <? Py.count "," a)%nat
                 then flawed_name ("flawed name: author with more than 1 comma found '"
                                     ++ value ++ "'") st
                 else st)
              authors st in
  let st := if Py.contains "{" value || Py.contains "}" value
            then flawed_name "authors field has curly braces {} - not needed" st
            else st in
  let firstAuthorLastname := normalize_lastname (first_author_lastname authors) in
  if negb (Py.contains firstAuthorLastname (currentId st))
     && negb (Py.contains (Py.replace "-" "" firstAuthorLastname) (currentId st))
  then flawed_name ("first authors last name '" ++ firstAuthorLastname
                      ++ "' not part of bib-key") st
  else st.

(** Lines 244-258 *)
Definition check_year (value : string) (st : state) : state :=
  let minyear := 1900%Z in
  let maxyear := (now_year + 1)%Z in
  let st := match Py.int value with
            | Some y =>
                if negb ((minyear <? y)%Z && (y <=? maxyear)%Z)
                then flawed_name ("year must be in range of (" ++ Py.str_of_Z minyear
                                    ++ ", " ++ Py.str_of_Z maxyear ++ ")") st
                else st
            | None => flawed_name ("failed to parse year '" ++ value ++ "'") st
            end in
  if negb (Py.contains value (currentId st))
  then flawed_name "year is not part of bib-key" st
  else st.

(** Lines 259-261: a subproblem that no counter records *)
Definition check_pages (value : string) (st : state) : state :=
  if Py.startswith value "1--"
  then append_subproblem ("pages '" ++ value ++ "' is most likey not correct: "
                            ++ "check that your reference really starts on page 1") st
  else st.

(** Lines 262-268 *)
Definition check_urldate_format (value : string) (st : state) : state :=
  if dateutil_parse value then st
  else flawed_name ("urldate '" ++ value ++ "' is not formatted according to ISO 8601") st.

(** Lines 273-277.  [counterDocumentLinkErrors] is assigned nowhere, so
    [counterDocumentLinkErrors += 1] raises [NameError] when reached. *)
Definition check_doi (value : string) (st : state) : outcome state :=
  if Py.startswith value "http" then
    let st := append_subproblem
                ("DOI '" ++ value
                   ++ "' must not start with http - only the numeric part is sufficient") st in
    Raise NameError
  else Ok st.

(** Lines 283-286 *)
Definition check_proceedings (field : string) (st : state) : state :=
  if String.eqb (currentType st) "proceedings" && String.eqb field "pages"
  then wrong_type "wrong type: maybe should be 'inproceedings' because entry has page numbers" st
  else st.

(** Lines 288-292 *)
Definition check_journal (line field value : string) (st : state) : state :=
  if String.eqb (currentType st) "article" && String.eqb field "journal"
  then if Py.contains "." line
       then flawed_name ("flawed name: abbreviated journal title '" ++ value ++ "'") st
       else st
  else st.

(** Lines 213-292: one line with an [=] of an entry in scope *)
Definition check_field (line : string) (st : state) : outcome state :=
  let field := Py.lower (Py.strip_ws (hd "" (Py.split "=" line))) in
  let st := set_fields (fields st ++ [field]) st in
  let value := Py.strip stripped (List.nth 1 (Py.split "=" line) "") in
  let st := check_null field value st in
  let st := if String.eqb field "author" then check_author value st else st in
  let st := if String.eqb field "year" then check_year value st else st in
  let st := if String.eqb field "pages" then check_pages value st else st in
  let st := if String.eqb field "urldate" then check_urldate_format value st else st in
  let st := if String.eqb field "citeulike-article-id"
            then set_currentArticleId value st else st in
  let st := if String.eqb field "title"
            then set_currentTitle (Py.remove_chars "}{" value) st else st in
  st ← (if String.eqb field "doi" then check_doi value st else Ok st);
  Ok (check_journal line field value (check_proceedings field st)).

(** Lines 209-292 *)
Definition entry_contents (line : string) (st : state) : outcome state :=
  let st := if String.eqb line "" then st
            else set_completeEntry (completeEntry st ++ line ++ "<br />") st in
  if in_scope st then
    if Py.contains "=" line then check_field line st else Ok st
  else Ok st.

(** Lines 137-292: the loop body, applied to one line as the file
    iterator yields it. *)
Definition step (fuel : nat) (st : state) (line : string) : outcome state :=
  let st := set_lineNo (lineNo st + 1) st in
  let line := Py.strip (Py.str Py.nl) line in
  if Py.startswith line "@" then
    st ← finalize fuel st;
    start_entry line st
  else entry_contents line st.

Fixpoint loop (fuel : nat) (st : state) (lines : list string) : outcome state :=
  match lines with
  | [] => Ok st
  | line :: rest => st ← step fuel st line; loop fuel st rest
  end.

End MainLoop.

(** ** After the loop (lines 296-590) *)

(** Line 299 *)
Definition problemCount (st : state) : nat :=
  counterMissingFields st + counterFlawedNames st + counterWrongTypes st
  + counterNonUniqueId st.

(** [problems.sort()] (line 576) orders the HTML blocks by the
    comparison of Python strings, code point by code point; on UTF-8
    bytes that is [String.leb]. *)
Definition str_le (s1 s2 : string) : Prop := String.leb s1 s2 = true.

#[global] Instance str_le_dec : RelDecision str_le.
Proof. intros s1 s2. unfold str_le. apply _. Defined.

Definition sort (l : list string) : list string := merge_sort str_le l.

(** What a run leaves behind: the blocks in the order in which the
    report lists them, the four counters and their sum, and whether
    the process exits with a failure status (lines 588-590). *)
Record report : Type := mkReport {
  entries : list string;
  missingFields : nat;
  flawedNames : nat;
  wrongTypes : nat;
  nonUniqueId : nat;
  total : nat;
  failed : bool
}.

Definition make_report (st : state) : report :=
  mkReport (sort (problems st))
    (counterMissingFields st) (counterFlawedNames st) (counterWrongTypes st)
    (counterNonUniqueId st) (problemCount st) (0 <? problemCount st)%nat.

(** The whole script, from the lines of the two files. *)
Definition main {E : Env} (fuel : nat) (config : gmap string requirement)
    (aux : option (list string)) (bib : list string) : outcome report :=
  used_cits ← read_aux aux;
  st ← loop used_cits config fuel initial bib;
  Ok (make_report st).

(** ** The required-fields rule in the words of the specification

    A field requirement may encode alternatives separated by [/]; it is
    satisfied if any alternative is among the observed field names.
    [unsatisfied] lists the requirements for which none is. *)
Definition satisfied (observed : list string) (requirement : string) : Prop :=
  Exists (fun alternative => alternative ∈ observed) (Py.split "/" requirement).

Definition unsatisfied (observed required : list string) : list string :=
  filter (fun requirement => ~ satisfied observed requirement) required.

(** ** The report order in the words of the specification

    A stable sort on the identifier: the key is the identifier alone,
    and entries with equal identifiers keep the order in which they were
    collected.  An entry is given as its identifier with its block. *)
Fixpoint insert_by_identifier (e : string * string) (l : list (string * string))
    : list (string * string) :=
  match l with
  | [] => [e]
  | x :: l' =>
      if String.leb (fst e) (fst x) then e :: l else x :: insert_by_identifier e l'
  end.

Definition sort_by_identifier (l : list (string * string)) : list (string * string) :=
  foldr insert_by_identifier [] l.

(** ** The alias chain of an entry type

    [alias_chain rf n t] is the value of [currentType] after the body
    of the loop of lines 145-146 has run [n] times from [t], when it can
    run that often: each run needs a string under the current type. *)
Fixpoint alias_chain (rf : gmap string requirement) (n : nat) (t : string) : option string :=
  match n with
  | O => Some t
  | S n =>
      match rf !! t with
      | Some (AliasOf t') => alias_chain rf n t'
      | _ => None
      end
  end.

(** The chain from [t] comes back to a type it has already passed. *)
Definition alias_cycle (rf : gmap string requirement) (t : string) : Prop :=
  exists i j u, (i < j)%nat /\ alias_chain rf i t = Some u /\ alias_chain rf j t = Some u.

(** Two configurations that the built-in one does not exhibit: a pair
    of types that are aliases of each other, and an alias of a type
    that is not configured. *)
Definition cyclic_config : gmap string requirement :=
  list_to_map [
    ("conference", AliasOf "inproceedings");
    ("inproceedings", AliasOf "conference");
    ("misc", FieldList ["title"])
  ].

Definition dangling_config : gmap string requirement :=
  list_to_map [
    ("conference", AliasOf "inproceedings");
    ("misc", FieldList ["title"])
  ].

(** ** A small environment to run the script on examples

    [latin1_unidecode] covers only the letters of the Latin-1 supplement
    that occur in the examples below (their second UTF-8 byte after the
    lead byte 195) and drops every other byte above 127; ASCII bytes are
    kept, as [unidecode] keeps them. *)

Definition latin1_letter (c : ascii) : string :=
  match nat_of_ascii c with
  | 132 | 133 => "A"
  | 150 => "O"
  | 156 => "U"
  | 164 | 165 => "a"
  | 169 => "e"
  | 182 => "o"
  | 188 => "u"
  | _ => ""
  end.

Fixpoint latin1_unidecode (s : string) : string :=
  match s with
  | "" => ""
  | String c s' =>
      (if Py.is_ascii_char c then Py.str c else latin1_letter c) ++ latin1_unidecode s'
  end.

(** A date parser that accepts exactly [YYYY-MM-DD] shaped text. *)
Definition iso_shape (s : string) : bool :=
  match list_ascii_of_string s with
  | [y1; y2; y3; y4; d1; m1; m2; d2; a1; a2] =>
      forallb Py.is_digit [y1; y2; y3; y4; m1; m2; a1; a2]
      && Ascii.eqb d1 "-" && Ascii.eqb d2 "-"
  | _ => false
  end.

(** The lines of a text file as iterating over it yields them: each
    with its line feed. *)
Definition file (lines : list string) : list string :=
  map (fun line => line ++ Py.str Py.nl) lines.

(** ** Inputs of the examples *)

(** The entry of the scenario of the specification: an [article]
    without a [volume] and with an abbreviated journal title. *)
Definition smith_entry : list string :=
  file ["@article{smith2020foo,"; "  author = {Smith, John},"; "  title = {Foo},";
        "  journal = {J. Bar},"; "  year = {2020}"; "}"].

(** The variables at the end of an entry of type [conference] with an
    author and a title: the type is an alias of [inproceedings], whose
    [booktitle] and [year] are missing. *)
Definition conference_entry : state :=
  mkState "" "doe2020" ["doe2020"] "conference" "" "" ["author"; "title"] [] [] 0 0 0 0 3.

(** The variables right after the first line of an [article] entry
    with the identifier [id]. *)
Definition entry_with_id (id : string) : state :=
  mkState "" id [id] "article" "" "" [] [] [] 0 0 0 0 1.

(** The usage listing cites [Smith2020]; the entry [Smith2020] of the
    [.bib] file is read as [smith2020] and is not checked, although it
    has neither a title nor a year and its [doi] is a URL. *)
Definition capital_aux : list string := file ["\relax "; "\citation{Smith2020}"].
Definition capital_bib : list string :=
  file ["@article{Smith2020,"; "  author = {Doe, Jane},";
        "  doi = {https://doi.org/10.1000/182},"; "}"; "@misc{other,"; "}"].

(** Two entries share the identifier [dup]; the first has two problems,
    the second one. *)
Definition duplicate_bib : list string :=
  file ["@manual{dup,"; "}"; "@unknown{dup,"; "}"; "@misc{end,"; "}"].

(** The identifier [doe] is a prefix of the identifier [doe&roe]. *)
Definition prefix_bib : list string :=
  file ["@unknown{doe,"; "}"; "@unknown{doe&roe,"; "}"; "@misc{end,"; "}"].

(** The state in which a computation ends, for the examples that run
    the script on a file. *)
Definition state_of (o : outcome state) : state :=
  match o with
  | Ok st => st
  | _ => initial
  end.

(** The entry of the scenario followed by a second entry. *)
Definition two_entries : list string := smith_entry ++ file ["@misc{next2021,"; "}"].

(** The lines of the entry of the scenario after its first one. *)
Definition smith_lines : list string :=
  file ["  author = {Smith, John},"; "  title = {Foo},"; "  journal = {J. Bar},";
        "  year = {2020}"; "}"].


(** ** Counting the lines of a file *)

(** Line 140, on a line as the file iterator yields it. *)
Definition starts_entry (line : string) : bool :=
  Py.startswith (Py.strip (Py.str Py.nl) line) "@".

(** The number of lines that start an entry. *)
Definition entry_lines (lines : list string) : nat :=
  length (filter (fun line => starts_entry line = true) lines).

(** Lines 215 and 217: the field name and the value of a line with an
    assignment. *)
Definition field_of (line : string) : string :=
  Py.lower (Py.strip_ws (hd "" (Py.split "=" line))).

Definition value_of (line : string) : string :=
  Py.strip stripped (List.nth 1 (Py.split "=" line) "").

(** [s[k:]] *)
Fixpoint drop_chars (k : nat) (s : string) : string :=
  match k, s with
  | O, _ => s
  | S k, String _ s' => drop_chars k s'
  | S _, "" => ""
  end.

(** The text that the lines of an entry add to [completeEntry]
    (lines 210-211): each non-empty line, followed by a break. *)
Fixpoint echoed (lines : list string) : string :=
  match lines with
  | [] => ""
  | line :: rest =>
      let text := Py.strip (Py.str Py.nl) line in
      (if String.eqb text "" then "" else text ++ "<br />") ++ echoed rest
  end.

(** The field names of the lines with an assignment, in their order
    (lines 213-216). *)
Definition assigned (lines : list string) : list string :=
  map field_of
    (filter (fun text => Py.contains "=" text = true)
       (map (Py.strip (Py.str Py.nl)) lines)).

(** A configuration in which every alias names a type configured with
    a list, as the built-in one. *)
Definition settled (rf : gmap string requirement) (v : requirement) : bool :=
  match v with
  | FieldList _ => true
  | AliasOf t =>
      match rf !! t with
      | Some (FieldList _) => true
      | _ => false
      end
  end.

Definition flat (rf : gmap string requirement) : Prop :=
  map_Forall (fun _ v => settled rf v = true) rf.

(** A line that starts an entry and has no opening brace (line 197
    fails on it), and a line that assigns to [doi] a value starting
    with [http] (line 277 fails on it). *)
Definition headless (line : string) : Prop :=
  starts_entry line = true
  /\ Py.split "{" (Py.strip (Py.str Py.nl) line) !! 1%nat = None.

Definition doi_url (line : string) : Prop :=
  let text := Py.strip (Py.str Py.nl) line in
  starts_entry line = false /\ Py.contains "=" text = true
  /\ field_of text = "doi" /\ Py.startswith (value_of text) "http" = true.

(** A citation line of the usage listing without an opening brace
    (line 91 fails on it). *)
Definition braceless_citation (line : string) : Prop :=
  Py.startswith line "\citation" = true /\ Py.split "{" line !! 1%nat = None.

(** The names of an [author] value with more than one comma
    (lines 223-225). *)
Definition names_with_commas (value : string) : list string :=
  filter (fun a => (1 < Py.count "," a)%nat) (Py.split " and " value).
(** * Properties

    ** The string primitives on small inputs *)

Example split_slash : Py.split "/" "author/editor" = ["author"; "editor"].
Proof. reflexivity. Qed.
Example split_and : Py.split " and " "Smith, J and Doe, A and B" = ["Smith, J"; "Doe, A"; "B"].
Proof. reflexivity. Qed.
Example split_none : Py.split "{" "@comment" = ["@comment"].
Proof. reflexivity. Qed.
Example split_edges : Py.split "=" "=a==" = [""; "a"; ""; ""].
Proof. reflexivity. Qed.
Example strip_value : Py.strip "{} ," " {Smith, John}," = "Smith, John".
Proof. reflexivity. Qed.
Example rstrip_id : Py.rstrip ("," ++ Py.str Py.nl) "smith2020foo," = "smith2020foo".
Proof. reflexivity. Qed.
Example replace_ex : Py.replace "." "" "J. R. R." = "J R R".
Proof. reflexivity. Qed.
Example int_ok : Py.int "2_020" = Some 2020%Z.
Proof. reflexivity. Qed.
Example int_bad : Py.int "20a0" = None /\ Py.int "" = None /\ Py.int "1__0" = None /\ Py.int "10_" = None.
Proof. repeat split; reflexivity. Qed.
Example int_neg : Py.int " -12 " = Some (-12)%Z.
Proof. reflexivity. Qed.
Example str_nat : Py.str_of_nat 0 = "0" /\ Py.str_of_nat 12 = "12".
Proof. split; reflexivity. Qed.
Example punct_len : String.length Py.punctuation = 32.
Proof. reflexivity. Qed.

(** ** Sequencing *)

Lemma outcome_bind_ok {A B : Type} (a : A) (k : A -> outcome B) : (Ok a ≫= k) = k a.
Proof. reflexivity. Qed.

(** ** Characters of the results of the string primitives *)

Section Chars.

Variable p : ascii -> bool.

Lemma all_chars_app (a b : string) :
  Py.all_chars p (a ++ b) = Py.all_chars p a && Py.all_chars p b.
Proof.
  induction a as [|c a IH]; simpl; [done|].
  by rewrite IH, andb_assoc.
Qed.

Lemma split_from_nonempty (sep : string) (k : nat) (s : string) :
  Py.split_from sep k s <> [].
Proof.
  revert k. induction s as [|c s IH]; intros k; cbn [Py.split_from]; [done|].
  destruct k as [|k]; [|apply IH].
  destruct (String.prefix sep (String c s)); [done|].
  by destruct (Py.split_from sep 0 s).
Qed.

Lemma all_chars_split_from (sep s : string) (k : nat) :
  Py.all_chars p s = true ->
  Forall (fun x => Py.all_chars p x = true) (Py.split_from sep k s).
Proof.
  revert k. induction s as [|c s IH]; intros k H; cbn [Py.split_from].
  - by constructor.
  - simpl in H. apply andb_true_iff in H as [Hc Hs].
    destruct k as [|k]; [|by apply IH].
    destruct (String.prefix sep (String c s)).
    + constructor; [done|by apply IH].
    + specialize (IH 0%nat Hs).
      destruct (Py.split_from sep 0 s) as [|piece rest].
      * constructor; [simpl; by rewrite Hc|done].
      * inversion IH; subst. constructor; [simpl; by rewrite Hc|done].
Qed.

Lemma all_chars_concat (sep : string) (l : list string) :
  Py.all_chars p sep = true ->
  Forall (fun x => Py.all_chars p x = true) l ->
  Py.all_chars p (String.concat sep l) = true.
Proof.
  intros Hsep. induction 1 as [|x l Hx Hl IH]; simpl; [done|].
  destruct l as [|y l]; [done|].
  rewrite !all_chars_app, Hx, Hsep. exact IH.
Qed.

Lemma all_chars_replace (old new s : string) :
  Py.all_chars p new = true -> Py.all_chars p s = true ->
  Py.all_chars p (Py.replace old new s) = true.
Proof.
  intros Hnew Hs. unfold Py.replace, Py.join, Py.split.
  apply all_chars_concat; [done|]. by apply all_chars_split_from.
Qed.

Lemma all_chars_lstrip (chars s : string) :
  Py.all_chars p s = true -> Py.all_chars p (Py.lstrip chars s) = true.
Proof.
  induction s as [|c s IH]; simpl; [done|].
  intros H. destruct (Py.char_in c chars); [|done].
  apply andb_true_iff in H as [_ H]. by apply IH.
Qed.

Lemma all_chars_rstrip (chars s : string) :
  Py.all_chars p s = true -> Py.all_chars p (Py.rstrip chars s) = true.
Proof.
  induction s as [|c s IH]; simpl; [done|].
  intros H. apply andb_true_iff in H as [Hc H]. specialize (IH H).
  destruct (Py.rstrip chars s) as [|d r].
  - destruct (Py.char_in c chars); simpl; [done|by rewrite Hc].
  - simpl in *. by rewrite Hc.
Qed.

Lemma all_chars_strip (chars s : string) :
  Py.all_chars p s = true -> Py.all_chars p (Py.strip chars s) = true.
Proof. intros H. unfold Py.strip. by apply all_chars_lstrip, all_chars_rstrip. Qed.

Lemma all_chars_remove_chars (chars s : string) :
  Py.all_chars p s = true -> Py.all_chars p (Py.remove_chars chars s) = true.
Proof.
  induction s as [|c s IH]; simpl; [done|].
  intros H. apply andb_true_iff in H as [Hc H].
  destruct (Py.char_in c chars); simpl; [by apply IH|].
  by rewrite Hc, IH.
Qed.

End Chars.

Lemma lower_char_not_upper (c : ascii) : Py.is_upper (Py.lower_char c) = false.
Proof. destruct c as [[] [] [] [] [] [] [] []]; reflexivity. Qed.

Lemma lower_char_ascii (c : ascii) :
  Py.is_ascii_char c = true -> Py.is_ascii_char (Py.lower_char c) = true.
Proof. destruct c as [[] [] [] [] [] [] [] []]; intros H; try reflexivity; exact H. Qed.

Lemma no_upper_lower (s : string) : Py.no_upper (Py.lower s) = true.
Proof.
  unfold Py.no_upper. induction s as [|c s IH]; simpl; [done|].
  by rewrite lower_char_not_upper, IH.
Qed.

Lemma is_ascii_lower (s : string) :
  Py.is_ascii s = true -> Py.is_ascii (Py.lower s) = true.
Proof.
  unfold Py.is_ascii. induction s as [|c s IH]; simpl; [done|].
  intros H. apply andb_true_iff in H as [Hc H].
  by rewrite lower_char_ascii, IH.
Qed.

Lemma free_of_remove_chars (chars s : string) :
  Py.free_of chars (Py.remove_chars chars s) = true.
Proof.
  unfold Py.free_of. induction s as [|c s IH]; simpl; [done|].
  destruct (Py.char_in c chars) eqn:Hc; simpl; [done|].
  by rewrite Hc, IH.
Qed.

Lemma append_cons (c : ascii) (x y : string) : String c x ++ y = String c (x ++ y).
Proof. reflexivity. Qed.

(** Replacing a single character by nothing removes that character. *)
Lemma concat_empty_cons (x : string) (l : list string) :
  String.concat "" (x :: l) = x ++ String.concat "" l.
Proof.
  destruct l as [|y l]; [|done].
  cbn [String.concat]. induction x as [|c x IH]; [done|].
  rewrite append_cons. by rewrite <- IH.
Qed.

Lemma prefix_single (c d : ascii) (s : string) :
  String.prefix (Py.str c) (String d s) = Ascii.eqb d c.
Proof.
  unfold Py.str. simpl.
  destruct (ascii_dec c d) as [->|Hne].
  - rewrite Ascii.eqb_refl. by destruct s.
  - symmetry. apply Ascii.eqb_neq. congruence.
Qed.

Lemma replace_char_empty (c : ascii) (s : string) :
  Py.replace (String c "") "" s = Py.remove_chars (String c "") s.
Proof.
  change (String c "") with (Py.str c).
  unfold Py.replace, Py.join, Py.split.
  induction s as [|d s IH]; [done|].
  cbn [Py.split_from Py.remove_chars].
  rewrite prefix_single.
  replace (Py.char_in d (Py.str c)) with (Ascii.eqb d c)
    by (unfold Py.char_in; simpl; by rewrite orb_false_r).
  destruct (Ascii.eqb d c).
  - change (String.length (Py.str c) - 1)%nat with 0%nat.
    by rewrite concat_empty_cons, IH.
  - pose proof (split_from_nonempty (Py.str c) 0 s) as Hne.
    destruct (Py.split_from (Py.str c) 0 s) as [|piece rest]; [done|].
    rewrite concat_empty_cons in *. by rewrite append_cons, IH.
Qed.

Lemma char_in_app (c : ascii) (a b : string) :
  Py.char_in c (a ++ b) = Py.char_in c a || Py.char_in c b.
Proof.
  unfold Py.char_in. induction a as [|d a IH]; simpl; [done|].
  by rewrite IH, orb_assoc.
Qed.

Lemma remove_chars_twice (a b s : string) :
  Py.remove_chars b (Py.remove_chars a s) = Py.remove_chars (a ++ b) s.
Proof.
  induction s as [|c s IH]; simpl; [done|].
  rewrite char_in_app.
  destruct (Py.char_in c a); simpl; [done|].
  destruct (Py.char_in c b); by rewrite IH.
Qed.

(** ** The example environment *)

Lemma latin1_letter_ascii (c : ascii) : Py.is_ascii (latin1_letter c) = true.
Proof. destruct c as [[] [] [] [] [] [] [] []]; reflexivity. Qed.

Lemma latin1_unidecode_ascii (s : string) : Py.is_ascii (latin1_unidecode s) = true.
Proof.
  unfold Py.is_ascii. induction s as [|c s IH]; [done|].
  cbn [latin1_unidecode]. rewrite all_chars_app, IH, andb_true_r.
  destruct (Py.is_ascii_char c) eqn:Hc.
  - simpl. by rewrite Hc.
  - apply latin1_letter_ascii.
Qed.

Lemma latin1_unidecode_id (s : string) :
  Py.is_ascii s = true -> latin1_unidecode s = s.
Proof.
  unfold Py.is_ascii. induction s as [|c s IH]; [done|].
  cbn [latin1_unidecode Py.all_chars]. intros H.
  apply andb_true_iff in H as [Hc H]. by rewrite Hc, IH.
Qed.

(** The environment of the examples: the year is 2024. *)
Definition env2024 : Env :=
  Build_Env 2024 latin1_unidecode iso_shape latin1_unidecode_ascii latin1_unidecode_id.

(** The scenario of the specification, followed by a second entry: two
    problems are counted, and the report holds the block of the entry
    together with the block of the empty entry that was pending before
    the first line. *)
Example scenario_followed_by_entry :
  exists r, @main env2024 1 requiredFields None (smith_entry ++ file ["@misc{next2021,"]) = Ok r
    /\ missingFields r = 1%nat /\ flawedNames r = 1%nat /\ total r = 2%nat
    /\ length (entries r) = 2%nat
    /\ existsb (Py.contains "<li>article: missing field 'volume'</li>") (entries r) = true
    /\ existsb (Py.contains "<li>flawed name: abbreviated journal title 'J. Bar'</li>")
         (entries r) = true.
Proof. eexists. split; [vm_compute; reflexivity|]. vm_compute. tauto. Qed.

(** ** The first author's last name (claim C9) *)

Example normalize_angstroem :
  @normalize_lastname env2024 "Ångström" = "angstroem".
Proof. reflexivity. Qed.

Example normalize_capital_umlaut :
  @normalize_lastname env2024 "Özil" = "ozil".
Proof. reflexivity. Qed.

Example normalize_strips :
  @normalize_lastname env2024 "O'Neil Jr." = "oneiljr".
Proof. reflexivity. Qed.

Section LastName.

Context {E : Env}.

Lemma normalize_lastname_stages (s : string) :
  normalize_lastname s =
  Py.remove_chars " .'"
    (Py.lower (unidecode
       (Py.replace "ü" "ue" (Py.replace "ö" "oe" (Py.replace "ä" "ae" s))))).
Proof.
  unfold normalize_lastname.
  rewrite !replace_char_empty, !remove_chars_twice. reflexivity.
Qed.

(** C9: the last name goes through the three literal replacements
    (a-umlaut, o-umlaut, u-umlaut to [ae], [oe], [ue]), then through
    [unidecode], then through [lower], and finally loses its spaces,
    periods and apostrophes, in this order.  The key is always ASCII,
    without capital letter, space, period or apostrophe; for "Müller"
    it is "mueller", and for "Ångström" it is ASCII and lower case. *)
Theorem normalize_lastname_key :
  normalize_lastname "Müller" = "mueller"
  /\ (Py.is_ascii (normalize_lastname "Ångström") = true
      /\ Py.no_upper (normalize_lastname "Ångström") = true)
  /\ forall s,
       let key := normalize_lastname s in
       key = Py.remove_chars " .'"
               (Py.lower (unidecode
                  (Py.replace "ü" "ue" (Py.replace "ö" "oe" (Py.replace "ä" "ae" s)))))
       /\ Py.is_ascii key = true
       /\ Py.no_upper key = true
       /\ Py.free_of " .'" key = true.
Proof.
  assert (Hall : forall s,
             let key := normalize_lastname s in
             Py.is_ascii key = true /\ Py.no_upper key = true
             /\ Py.free_of " .'" key = true).
  { intros s key. subst key. rewrite normalize_lastname_stages. repeat split.
    - apply all_chars_remove_chars, is_ascii_lower, unidecode_ascii.
    - apply all_chars_remove_chars, no_upper_lower.
    - apply free_of_remove_chars. }
  split; [|split].
  - unfold normalize_lastname.
    change (Py.replace "ü" "ue" (Py.replace "ö" "oe" (Py.replace "ä" "ae" "Müller")))
      with "Mueller".
    rewrite unidecode_id by reflexivity. reflexivity.
  - destruct (Hall "Ångström") as (Ha & Hu & _). by split.
  - intros s key. split; [apply normalize_lastname_stages|apply Hall].
Qed.

End LastName.

(** ** What the lines of an entry can change *)

Lemma fold_left_keeps {A B : Type} (proj : state -> B) (f : state -> A -> state)
    (l : list A) (st : state) :
  (forall st a, proj (f st a) = proj st) -> proj (fold_left f l st) = proj st.
Proof.
  intros Hf. revert st. induction l as [|a l IH]; intros st; simpl; [done|].
  by rewrite IH, Hf.
Qed.

Ltac case_ifs :=
  repeat match goal with
         | |- context [if ?b then _ else _] => destruct b
         | |- context [match ?o with Some _ => _ | None => _ end] => destruct o
         end.

Section Frame.

Context {E : Env}.
Variable used_cits : gset string.

Lemma check_author_problems (value : string) (st : state) :
  problems (check_author value st) = problems st.
Proof.
  unfold check_author. cbv zeta. case_ifs; cbn;
    (apply fold_left_keeps; intros st0 a; by case_ifs).
Qed.

Lemma check_year_problems (value : string) (st : state) :
  problems (check_year value st) = problems st.
Proof. unfold check_year. cbv zeta. by case_ifs. Qed.

Lemma check_field_problems (line : string) (st st' : state) :
  check_field line st = Ok st' -> problems st' = problems st.
Proof.
  unfold check_field. cbv zeta.
  set (field := Py.lower _). set (value := Py.strip _ _).
  set (st1 := check_null _ _ _).
  assert (H1 : problems st1 = problems st) by (unfold st1, check_null; by case_ifs).
  set (st2 := if String.eqb field "author" then _ else _).
  assert (H2 : problems st2 = problems st).
  { unfold st2. destruct (String.eqb field "author"); [|done].
    by rewrite check_author_problems. }
  set (st3 := if String.eqb field "year" then _ else _).
  assert (H3 : problems st3 = problems st).
  { unfold st3. destruct (String.eqb field "year"); [|done].
    by rewrite check_year_problems. }
  set (st4 := if String.eqb field "pages" then _ else _).
  assert (H4 : problems st4 = problems st).
  { unfold st4, check_pages. by case_ifs. }
  set (st5 := if String.eqb field "urldate" then _ else _).
  assert (H5 : problems st5 = problems st).
  { unfold st5, check_urldate_format. by case_ifs. }
  set (st6 := if String.eqb field "citeulike-article-id" then _ else _).
  assert (H6 : problems st6 = problems st) by (unfold st6; by case_ifs).
  set (st7 := if String.eqb field "title" then _ else _).
  assert (H7 : problems st7 = problems st) by (unfold st7; by case_ifs).
  clearbody st7. clear -H7.
  unfold check_doi. destruct (String.eqb field "doi"); [destruct (Py.startswith value "http")|];
    cbn; intros [= <-]; unfold check_journal, check_proceedings; by case_ifs.
Qed.

Lemma entry_contents_problems (line : string) (st st' : state) :
  entry_contents used_cits line st = Ok st' -> problems st' = problems st.
Proof.
  unfold entry_contents.
  set (st0 := if String.eqb line "" then _ else _).
  assert (H0 : problems st0 = problems st) by (unfold st0; by case_ifs).
  destruct (in_scope used_cits st0); [|by intros [= <-]].
  destruct (Py.contains "=" line); [|by intros [= <-]].
  intros H%check_field_problems. congruence.
Qed.

(** No block is appended while the lines of an entry are read: after
    the last line starting with [@], [problems] stays as it is up to the
    end of the file. *)
Lemma trailing_lines_append_nothing (rf : gmap string requirement) (fuel : nat)
    (lines : list string) (st st' : state) :
  Forall (fun line => Py.startswith (Py.strip (Py.str Py.nl) line) "@" = false) lines ->
  loop used_cits rf fuel st lines = Ok st' ->
  problems st' = problems st.
Proof.
  intros Hall. revert st. induction Hall as [|line lines Hline _ IH]; intros st; simpl.
  - by intros [= <-].
  - unfold step. rewrite Hline.
    destruct (entry_contents _ _ _) as [st1| |] eqn:H1; cbn; [|done..].
    intros H. rewrite (IH _ H). by apply entry_contents_problems in H1.
Qed.

End Frame.

(** C1 (the code does not do what the claim says): the file consists of
    the single entry [smith2020foo], and no line starting with [@]
    follows it.  When the loop ends the entry is still pending: its
    fields are collected, but the required-fields check has not run
    (no missing field is counted although [volume] is absent) and
    [problems] holds no block for it.  Running the checks of a line
    starting with [@] on that final state would count the missing field
    and append the block. *)
Theorem last_entry_is_not_finalized :
  exists st,
    @loop env2024 ∅ requiredFields 1 initial smith_entry = Ok st
    /\ currentId st = "smith2020foo"
    /\ fields st = ["author"; "title"; "journal"; "year"]
    /\ counterMissingFields st = 0%nat
    /\ existsb (Py.contains "smith2020foo") (problems st) = false
    /\ exists st',
        finalize ∅ requiredFields 1 st = Ok st'
        /\ counterMissingFields st' = 1%nat
        /\ existsb (Py.contains "smith2020foo") (problems st') = true.
Proof.
  eexists. split; [vm_compute; reflexivity|].
  repeat (split; [vm_compute; reflexivity|]).
  eexists. split; [vm_compute; reflexivity|].
  split; vm_compute; reflexivity.
Qed.

(** ** Counters and emitted messages (claim C2) *)

(** C2 (the code does not do what the claim says): the usage set is
    [{a}]; the identifier [b] occurs twice and is not in the set.  The
    second occurrence counts one non-unique id, and its message is
    dropped at the next line starting with [@], where the entry [b] is
    found out of scope.  The report holds one block, that of [a], with
    three messages, all of missing fields; none tells of a non-unique
    id, yet one non-unique id is counted and the total is four. *)
Theorem counted_non_unique_id_is_not_emitted :
  exists r,
    @main env2024 1 requiredFields (Some (file ["\citation{a}"]))
      (file ["@misc{b,"; "}"; "@misc{b,"; "}"; "@misc{a,"; "}"; "@misc{c,"; "}"]) = Ok r
    /\ length (entries r) = 1%nat
    /\ Py.count "<li>" (String.concat "" (entries r)) = 3%nat
    /\ Py.count "<li>misc: missing field " (String.concat "" (entries r)) = 3%nat
    /\ existsb (Py.contains "non-unique id") (entries r) = false
    /\ nonUniqueId r = 1%nat
    /\ missingFields r = 3%nat /\ flawedNames r = 0%nat /\ wrongTypes r = 0%nat
    /\ total r = 4%nat
    /\ failed r = true.
Proof.
  eexists. split; [vm_compute; reflexivity|].
  repeat split; vm_compute; reflexivity.
Qed.

(** ** The [doi] check (claims C3 and C4) *)

Section Doi.

Context {E : Env}.

(** Any line that assigns to [doi] a value starting with [http] ends
    the run of an entry in scope with [NameError]. *)
Lemma doi_url_line_raises (line : string) (st : state) :
  Py.lower (Py.strip_ws (hd "" (Py.split "=" line))) = "doi" ->
  Py.startswith (Py.strip stripped (List.nth 1 (Py.split "=" line) "")) "http" = true ->
  check_field line st = Raise NameError.
Proof.
  intros Hfield Hvalue. unfold check_field. cbv zeta.
  rewrite Hfield. cbn [String.eqb Ascii.eqb Bool.eqb].
  unfold check_doi. by rewrite Hvalue.
Qed.

Lemma raise_is_final (used : gset string) (rf : gmap string requirement) (fuel : nat)
    (st : state) (line : string) (rest : list string) (e : exn) :
  step used rf fuel st line = Raise e -> loop used rf fuel st (line :: rest) = Raise e.
Proof. intros H. simpl. by rewrite H. Qed.

(** In an entry in scope, such a line ends the loop whatever follows. *)
Lemma doi_url_line_ends_loop (used : gset string) (rf : gmap string requirement)
    (fuel : nat) (st : state) (line : string) (rest : list string) :
  let text := Py.strip (Py.str Py.nl) line in
  Py.startswith text "@" = false ->
  in_scope used st = true ->
  Py.contains "=" text = true ->
  Py.lower (Py.strip_ws (hd "" (Py.split "=" text))) = "doi" ->
  Py.startswith (Py.strip stripped (List.nth 1 (Py.split "=" text) "")) "http" = true ->
  loop used rf fuel st (line :: rest) = Raise NameError.
Proof.
  intros text Hat Hscope Heq Hfield Hvalue. apply raise_is_final.
  unfold step. cbv zeta. fold text. rewrite Hat. unfold entry_contents.
  destruct (String.eqb text "");
    match goal with
    | |- context [in_scope used ?s] => change (in_scope used s) with (in_scope used st)
    end;
    rewrite Hscope, Heq; by apply doi_url_line_raises.
Qed.

Lemma diverge_is_final (used : gset string) (rf : gmap string requirement)
    (fuel : nat) (st : state) (line : string) (rest : list string) :
  step used rf fuel st line = Diverge -> loop used rf fuel st (line :: rest) = Diverge.
Proof. intros H. simpl. by rewrite H. Qed.

End Doi.

(** C3 (the code does not do what the claim says): the [doi] of the
    first entry starts with [http].  The run stops there with an
    uncaught [NameError]: the [title] line of the same entry and the
    second entry are never read, and no report is produced. *)
Theorem doi_finding_aborts_the_run :
  @main env2024 1 requiredFields None
    (file ["@misc{doe2020,"; "  doi = {https://doi.org/10.1000/182},";
           "  title = {T},"; "}"; "@misc{roe2021,"; "}"])
  = Raise NameError.
Proof. vm_compute. reflexivity. Qed.

(** C4 (the code does not do what the claim says): for a value that
    starts with [http] the [doi] check raises [NameError] right after
    appending its message, in every state: no state comes out of it, so
    [counterFlawedNames] is not incremented and the message is never
    reported.  Whenever the check does return, the value did not start
    with [http] and the state is the one it was given. *)
Theorem doi_url_is_never_counted `{E : Env} :
  (forall st, check_doi "https://doi.org/10.1000/182" st = Raise NameError)
  /\ (forall value st,
        Py.startswith value "http" = true -> check_doi value st = Raise NameError)
  /\ (forall value st st',
        check_doi value st = Ok st' -> Py.startswith value "http" = false /\ st' = st).
Proof.
  split; [done|]. split.
  - intros value st Hhttp. unfold check_doi. by rewrite Hhttp.
  - intros value st st'. unfold check_doi.
    destruct (Py.startswith value "http"); [done|].
    by intros [= <-].
Qed.

(** ** The required-fields check (claim C6) *)

Lemma mem_elem_of (x : string) (l : list string) : mem x l = true <-> x ∈ l.
Proof.
  unfold mem. rewrite existsb_exists. split.
  - intros (y & Hy & Heq). apply String.eqb_eq in Heq as ->. by apply list_elem_of_In.
  - intros Hx. exists x. split; [by apply list_elem_of_In|apply String.eqb_refl].
Qed.

Lemma any_given_satisfied (observed : list string) (field : string) :
  any_given observed field = true <-> satisfied observed field.
Proof.
  unfold any_given, satisfied. rewrite existsb_exists, Exists_exists.
  split; intros (f & Hin & Hf); exists f.
  - split; [by apply list_elem_of_In|by apply mem_elem_of].
  - split; [by apply list_elem_of_In|by apply mem_elem_of].
Qed.

Section Required.

Variable used_cits : gset string.
Variable rf : gmap string requirement.

Lemma missing_fields_spec (required : list string) (st : state) :
  let st' := missing_fields required st in
  subproblems st' =
    (subproblems st
     ++ map (missing_message (currentType st))
          (unsatisfied (fields st) required))%list
  /\ counterMissingFields st' =
       (counterMissingFields st + length (unsatisfied (fields st) required))%nat
  /\ fields st' = fields st /\ currentType st' = currentType st
  /\ counterFlawedNames st' = counterFlawedNames st
  /\ counterWrongTypes st' = counterWrongTypes st
  /\ counterNonUniqueId st' = counterNonUniqueId st
  /\ problems st' = problems st.
Proof.
  unfold missing_fields, unsatisfied. revert st.
  induction required as [|field required IH]; intros st.
  - cbn. rewrite app_nil_r. repeat split; lia.
  - cbn [fold_left]. rewrite filter_cons.
    destruct (any_given (fields st) field) eqn:Hany; cbn [negb].
    + apply any_given_satisfied in Hany.
      rewrite decide_False by tauto. apply IH.
    + assert (~ satisfied (fields st) field) as Hnot
        by (rewrite <- any_given_satisfied; congruence).
      rewrite decide_True by done.
      destruct (IH (missing_field (missing_message (currentType st) field) st))
        as (Hs & Hc & Hf & Ht & Hrest).
      cbn in Hs, Hc, Hf, Ht, Hrest |- *.
      rewrite Hs, Hc, <- app_assoc. repeat split; try tauto; lia.
Qed.

Lemma resolve_type_list (fuel : nat) (t0 t : string) (required : list string) :
  resolve_type rf fuel t0 = Ok (t, required) -> rf !! t = Some (FieldList required).
Proof.
  revert t0. induction fuel as [|fuel IH]; intros t0; cbn;
    destruct (rf !! t0) as [[l|t1]|] eqn:Hl; try done.
  - by intros [= <- <-].
  - by intros [= <- <-].
  - apply IH.
Qed.

(** C6: take an entry in scope whose type, with the aliases followed,
    leads to a list of requirements in the schema.  The required-fields
    check appends one message for each requirement none of whose
    [/]-separated alternatives is among the observed fields, in the
    order of the list, and adds their number to the counter of missing
    fields; it appends and counts nothing else. *)
Theorem required_fields_problem_count (fuel : nat) (st : state) (t : string)
    (required : list string) :
  in_scope used_cits st = true ->
  resolve_type rf fuel (currentType st) = Ok (t, required) ->
  exists st',
    check_required used_cits rf fuel st = Ok st'
    /\ rf !! t = Some (FieldList required)
    /\ subproblems st' =
         (subproblems st
          ++ map (missing_message t)
               (unsatisfied (fields st) required))%list
    /\ counterMissingFields st' =
         (counterMissingFields st + length (unsatisfied (fields st) required))%nat
    /\ counterFlawedNames st' = counterFlawedNames st
    /\ counterWrongTypes st' = counterWrongTypes st
    /\ counterNonUniqueId st' = counterNonUniqueId st.
Proof.
  intros Hscope Hres. unfold check_required. rewrite Hscope.
  assert (is_Some (rf !! currentType st)) as Hsome.
  { destruct fuel; cbn in Hres; destruct (rf !! currentType st); by eauto. }
  rewrite bool_decide_eq_true_2 by done. rewrite Hres. cbn.
  eexists. split; [reflexivity|]. split; [by eapply resolve_type_list|].
  destruct (missing_fields_spec required (set_currentType t st))
    as (Hs & Hc & _ & _ & Hf & Hw & Hn & _).
  cbn in Hs, Hc, Hf, Hw, Hn. by rewrite Hs, Hc, Hf, Hw, Hn.
Qed.

End Required.

Lemma required_fields_problem_count_witness :
  exists st',
    check_required ∅ requiredFields 1 conference_entry = Ok st'
    /\ requiredFields !! "inproceedings"
       = Some (FieldList ["author"; "title"; "booktitle"; "year"])
    /\ subproblems st' =
         ([] ++ map (missing_message "inproceedings")
                  (unsatisfied ["author"; "title"]
                     ["author"; "title"; "booktitle"; "year"]))%list
    /\ counterMissingFields st' =
         (0 + length (unsatisfied ["author"; "title"]
                        ["author"; "title"; "booktitle"; "year"]))%nat
    /\ counterFlawedNames st' = 0%nat
    /\ counterWrongTypes st' = 0%nat
    /\ counterNonUniqueId st' = 0%nat.
Proof.
  apply (required_fields_problem_count ∅ requiredFields 1 conference_entry
           "inproceedings" ["author"; "title"; "booktitle"; "year"]).
  - vm_compute. reflexivity.
  - vm_compute. reflexivity.
Defined.

Example unsatisfied_conference :
  unsatisfied ["author"; "title"] ["author"; "title"; "booktitle"; "year"]
  = ["booktitle"; "year"].
Proof. vm_compute. reflexivity. Qed.

Example unsatisfied_alternatives :
  unsatisfied ["editor"; "title"] ["author/editor"; "title"; "chapter/pages"]
  = ["chapter/pages"].
Proof. vm_compute. reflexivity. Qed.

(** ** The [year] check (claim C8) *)

Section Year.

Context {E : Env}.

(** On a line that assigns to [year], the field checks amount to the
    [null] check followed by the [year] check. *)
Lemma year_line_runs_check_year (line : string) (st : state) :
  Py.lower (Py.strip_ws (hd "" (Py.split "=" line))) = "year" ->
  let value := Py.strip stripped (List.nth 1 (Py.split "=" line) "") in
  check_field line st
  = Ok (check_year value (check_null "year" value (set_fields (fields st ++ ["year"]) st))).
Proof.
  intros Hfield. unfold check_field. cbv zeta. rewrite Hfield.
  cbn [String.eqb Ascii.eqb Bool.eqb andb].
  rewrite outcome_bind_ok. unfold check_proceedings, check_journal.
  cbn [String.eqb Ascii.eqb Bool.eqb andb]. by rewrite !andb_false_r.
Qed.


End Year.

(** The examples of the specification, in the year 2024. *)
Example year_2050_out_of_range :
  subproblems (@check_year env2024 "2050" (entry_with_id "smith2050"))
  = ["year must be in range of (1900, 2025)"].
Proof. reflexivity. Qed.

Example year_2024_in_key :
  subproblems (@check_year env2024 "2024" (entry_with_id "smith2024foo")) = [].
Proof. reflexivity. Qed.

Example year_2024_not_in_key :
  subproblems (@check_year env2024 "2024" (entry_with_id "smithfoo"))
  = ["year is not part of bib-key"].
Proof. reflexivity. Qed.

Example year_unparsable :
  subproblems (@check_year env2024 "20xx" (entry_with_id "smith2020"))
  = ["failed to parse year '20xx'"; "year is not part of bib-key"]
  /\ counterFlawedNames (@check_year env2024 "20xx" (entry_with_id "smith2020")) = 2%nat.
Proof. split; reflexivity. Qed.

Example year_bounds :
  subproblems (@check_year env2024 "1900" (entry_with_id "a1900"))
  = ["year must be in range of (1900, 2025)"]
  /\ subproblems (@check_year env2024 "1901" (entry_with_id "a1901")) = []
  /\ subproblems (@check_year env2024 "2025" (entry_with_id "a2025")) = []
  /\ subproblems (@check_year env2024 "2026" (entry_with_id "a2026"))
     = ["year must be in range of (1900, 2025)"].
Proof. repeat split; reflexivity. Qed.

(** ** A usage set written with capital letters (claim C10) *)

Section Capitals.

Context {E : Env}.
Variable used_cits : gset string.
Variable rf : gmap string requirement.
Variable fuel : nat.

Hypothesis used_nonempty : used_cits <> ∅.
Hypothesis used_capitals : forall id, id ∈ used_cits -> Py.no_upper id = false.

(** What holds of the variables as long as no entry has been in scope:
    nothing was checked, collected or reported. *)
Definition untouched (st : state) : Prop :=
  in_scope used_cits st = false
  /\ problems st = [] /\ fields st = []
  /\ counterMissingFields st = 0%nat /\ counterWrongTypes st = 0%nat
  /\ currentTitle st = "" /\ currentArticleId st = "".

Lemma out_of_scope (st : state) : Py.no_upper (currentId st) = true -> in_scope used_cits st = false.
Proof.
  intros Hid. unfold in_scope. apply orb_false_iff. split.
  - apply bool_decide_eq_false_2. intros Hin%used_capitals. congruence.
  - by apply bool_decide_eq_false_2.
Qed.

Lemma untouched_initial : untouched initial.
Proof. split; [by apply out_of_scope|done]. Qed.

Lemma parsed_id_no_upper (rest : string) :
  Py.no_upper (Py.strip_ws (Py.lower (Py.rstrip ("," ++ Py.str Py.nl) rest))) = true.
Proof. apply all_chars_strip, no_upper_lower. Qed.

Lemma finalize_untouched (st : state) :
  untouched st -> finalize used_cits rf fuel st = Ok (set_subproblems [] st).
Proof.
  intros (Hscope & _ & Hfields & _).
  unfold finalize, check_required. rewrite Hscope.
  change (Ok (set_subproblems [] st) ≫= _)
    with (Ok (append_problem used_cits
                (check_url_doi (check_urldate (set_subproblems [] st))))).
  unfold check_urldate.
  change (fields (set_subproblems [] st)) with (fields st). rewrite Hfields.
  cbn [mem existsb andb]. unfold check_url_doi.
  change (fields (set_subproblems [] st)) with (fields st). rewrite Hfields.
  cbn [mem existsb andb]. unfold append_problem.
  change (in_scope used_cits (set_subproblems [] st)) with (in_scope used_cits st).
  by rewrite Hscope.
Qed.

Lemma start_entry_untouched (line : string) (st : state) :
  untouched st ->
  match start_entry line st with
  | Ok st' => untouched st' /\ is_Some (Py.split "{" line !! 1%nat)
  | Raise e => e = IndexError /\ Py.split "{" line !! 1%nat = None
  | Diverge => False
  end.
Proof.
  intros (_ & Hp & _ & Hm & Hw & Ht & Ha).
  unfold start_entry. destruct (Py.split "{" line !! 1%nat) as [rest|]; [|done].
  cbv zeta. split; [|by eexists].
  split; [apply out_of_scope; case_ifs; cbn; apply parsed_id_no_upper|].
  case_ifs; by cbn.
Qed.

Lemma step_untouched (st : state) (line : string) :
  untouched st ->
  match step used_cits rf fuel st line with
  | Ok st' => untouched st'
  | Raise e =>
      e = IndexError
      /\ Py.startswith (Py.strip (Py.str Py.nl) line) "@" = true
      /\ Py.split "{" (Py.strip (Py.str Py.nl) line) !! 1%nat = None
  | Diverge => False
  end.
Proof.
  intros Hst. unfold step. cbv zeta.
  assert (untouched (set_lineNo (lineNo st + 1) st)) as Hst' by exact Hst.
  destruct (Py.startswith _ "@") eqn:Hat.
  - rewrite (finalize_untouched _ Hst'). cbn.
    assert (untouched (set_subproblems [] (set_lineNo (lineNo st + 1) st))) as Hst''
      by exact Hst.
    pose proof (start_entry_untouched (Py.strip (Py.str Py.nl) line) _ Hst'') as H.
    destruct (start_entry _ _) as [st'|e|]; [tauto|tauto|done].
  - unfold entry_contents.
    destruct Hst as (Hscope & Hrest).
    destruct (String.eqb _ "").
    + change (in_scope used_cits (set_lineNo (lineNo st + 1) st))
        with (in_scope used_cits st). rewrite Hscope. by split.
    + match goal with
      | |- context [in_scope used_cits ?s] =>
          change (in_scope used_cits s) with (in_scope used_cits st)
      end.
      rewrite Hscope. by split.
Qed.

Lemma loop_untouched (lines : list string) (st : state) :
  untouched st ->
  match loop used_cits rf fuel st lines with
  | Ok st' => untouched st'
  | Raise e =>
      e = IndexError
      /\ Exists (fun line =>
                   Py.startswith (Py.strip (Py.str Py.nl) line) "@" = true
                   /\ Py.split "{" (Py.strip (Py.str Py.nl) line) !! 1%nat = None) lines
  | Diverge => False
  end.
Proof.
  revert st. induction lines as [|line lines IH]; intros st Hst; cbn; [done|].
  pose proof (step_untouched st line Hst) as Hstep.
  destruct (step used_cits rf fuel st line) as [st1|e|]; cbn; [|by intuition|done].
  specialize (IH st1 Hstep).
  destruct (loop used_cits rf fuel st1 lines) as [st2|e|]; [done| |done].
  destruct IH as [-> Hex]. split; [done|by apply Exists_cons_tl].
Qed.


End Capitals.

Example capital_aux_read : read_aux (Some capital_aux) = Ok {["Smith2020"]}.
Proof. vm_compute. reflexivity. Qed.


Example capital_run :
  exists r, @main env2024 1 requiredFields (Some capital_aux) capital_bib = Ok r
    /\ entries r = [] /\ total r = 0%nat /\ failed r = false.
Proof. eexists. split; [vm_compute; reflexivity|]. by vm_compute. Qed.

(** ** The order of the report (claim C7) *)

Lemma ascii_compare_refl (c : ascii) : Ascii.compare c c = Eq.
Proof. unfold Ascii.compare. apply N.compare_refl. Qed.

Lemma ascii_compare_lt_trans (x y z : ascii) :
  Ascii.compare x y = Lt -> Ascii.compare y z = Lt -> Ascii.compare x z = Lt.
Proof. unfold Ascii.compare. rewrite !N.compare_lt_iff. lia. Qed.

Lemma string_compare_cons (x y : ascii) (a b : string) :
  String.compare (String x a) (String y b) =
  match Ascii.compare x y with
  | Eq => String.compare a b
  | Lt => Lt
  | Gt => Gt
  end.
Proof. reflexivity. Qed.

Lemma string_compare_trans (a b c : string) :
  String.compare a b <> Gt -> String.compare b c <> Gt -> String.compare a c <> Gt.
Proof.
  revert b c. induction a as [|x a IH]; intros [|y b] [|z c]; try done.
  rewrite !string_compare_cons.
  destruct (Ascii.compare x y) eqn:Hxy; [| |done].
  - apply Ascii.compare_eq_iff in Hxy as ->.
    destruct (Ascii.compare y z); [apply IH|done|done].
  - destruct (Ascii.compare y z) eqn:Hyz; [| |done].
    + apply Ascii.compare_eq_iff in Hyz as <-. by rewrite Hxy.
    + by rewrite (ascii_compare_lt_trans _ _ _ Hxy Hyz).
Qed.

Lemma str_le_compare (a b : string) : str_le a b <-> String.compare a b <> Gt.
Proof. unfold str_le, String.leb. by destruct (String.compare a b). Qed.

#[global] Instance str_le_total : Total str_le.
Proof. intros a b. apply String.leb_total. Qed.

#[global] Instance str_le_trans : Transitive str_le.
Proof. intros a b c. rewrite !str_le_compare. apply string_compare_trans. Qed.

#[global] Instance str_le_antisymm : AntiSymm (=) str_le.
Proof. intros a b. apply String.leb_antisym. Qed.

Lemma sort_sorted (l : list string) : StronglySorted str_le (sort l).
Proof. apply StronglySorted_merge_sort; apply _. Qed.

Lemma sort_permutation (l : list string) : sort l ≡ₚ l.
Proof. apply merge_sort_Permutation. Qed.

(** The result of [sort] depends on the blocks only, not on the order
    in which they were collected. *)
Lemma sort_deterministic (l1 l2 : list string) : l1 ≡ₚ l2 -> sort l1 = sort l2.
Proof.
  intros Hperm. apply (StronglySorted_unique str_le); [apply sort_sorted..|].
  by rewrite !sort_permutation.
Qed.

Lemma compare_common_prefix (p a b : string) :
  String.compare (p ++ a) (p ++ b) = String.compare a b.
Proof.
  induction p as [|c p IH]; [done|].
  by rewrite !append_cons, string_compare_cons, ascii_compare_refl.
Qed.

Lemma prefix_cons (x y : ascii) (a b : string) :
  String.prefix (String x a) (String y b) =
  if ascii_dec x y then String.prefix a b else false.
Proof. reflexivity. Qed.

Lemma compare_no_prefix (a b x y : string) :
  String.prefix a b = false -> String.prefix b a = false ->
  String.compare (a ++ x) (b ++ y) = String.compare a b.
Proof.
  revert b. induction a as [|c a IH]; intros [|d b]; try done.
  rewrite !prefix_cons, !append_cons, !string_compare_cons.
  destruct (ascii_dec c d) as [->|Hne].
  - destruct (ascii_dec d d); [|done]. rewrite ascii_compare_refl. apply IH.
  - intros _ _. destruct (Ascii.compare c d) eqn:Hcd; [|done..].
    by apply Ascii.compare_eq_iff in Hcd.
Qed.

Lemma render_problem_compare (st1 st2 : state) :
  String.prefix (currentId st1) (currentId st2) = false ->
  String.prefix (currentId st2) (currentId st1) = false ->
  String.compare (render_problem st1) (render_problem st2)
  = String.compare (currentId st1) (currentId st2).
Proof.
  intros H12 H21. unfold render_problem. cbv zeta.
  rewrite compare_common_prefix. by apply compare_no_prefix.
Qed.

(** C7, as stated, fails on both files.  The blocks are collected in
    the order of the file, which is also the order a stable sort on the
    identifier gives; the report lists the second [dup] before the
    first (its block continues with [severe1], the other with
    [severe2]), and [doe&roe] before [doe] (after the common part the
    blocks continue with [&] and with the closing apostrophe). *)
Lemma report_is_not_sorted_by_identifier :
  (exists st b0 b1 b2,
      @loop env2024 ∅ requiredFields 1 initial duplicate_bib = Ok st
      /\ problems st = [b0; b1; b2]
      /\ Py.startswith b0 "<div id='' class=" = true
      /\ Py.startswith b1 "<div id='dup' class='problem severe2'" = true
      /\ Py.startswith b2 "<div id='dup' class='problem severe1'" = true
      /\ map snd (sort_by_identifier [("", b0); ("dup", b1); ("dup", b2)]) = [b0; b1; b2]
      /\ entries (make_report st) = [b0; b2; b1]
      /\ b1 <> b2)
  /\ (exists st b0 b1 b2,
        @loop env2024 ∅ requiredFields 1 initial prefix_bib = Ok st
        /\ problems st = [b0; b1; b2]
        /\ Py.startswith b0 "<div id='' class=" = true
        /\ Py.startswith b1 "<div id='doe' class=" = true
        /\ Py.startswith b2 "<div id='doe&roe' class=" = true
        /\ map snd (sort_by_identifier [("", b0); ("doe", b1); ("doe&roe", b2)])
           = [b0; b1; b2]
        /\ entries (make_report st) = [b0; b2; b1]
        /\ b1 <> b2).
Proof.
  split.
  - eexists _, _, _, _. split; [vm_compute; reflexivity|].
    split; [reflexivity|].
    repeat (split; [vm_compute; reflexivity|]).
    vm_compute. discriminate.
  - eexists _, _, _, _. split; [vm_compute; reflexivity|].
    split; [reflexivity|].
    repeat (split; [vm_compute; reflexivity|]).
    vm_compute. discriminate.
Qed.

(** C7, as the code has it: the report lists the blocks sorted as
    strings, and the key is the whole block.  The entries of the report
    are a rearrangement of the collected blocks in ascending order, and
    the same for every arrangement of the same blocks.  A block starts
    with a fixed text followed by the identifier, so two entries of
    which neither identifier is a prefix of the other compare as their
    identifiers do. *)
Theorem report_sorted_by_block (st : state) :
  entries (make_report st) ≡ₚ problems st
  /\ StronglySorted str_le (entries (make_report st))
  /\ (forall st',
        problems st' ≡ₚ problems st ->
        entries (make_report st') = entries (make_report st))
  /\ (forall st1 st2,
        String.prefix (currentId st1) (currentId st2) = false ->
        String.prefix (currentId st2) (currentId st1) = false ->
        String.compare (render_problem st1) (render_problem st2)
        = String.compare (currentId st1) (currentId st2)).
Proof.
  split; [apply sort_permutation|].
  split; [apply sort_sorted|].
  split; [intros st' Hperm; by apply sort_deterministic|].
  apply render_problem_compare.
Qed.

(** ** The alias loop (claim C5) *)

Section Alias.

Variable rf : gmap string requirement.

Lemma alias_chain_add (i m : nat) (t : string) :
  alias_chain rf (i + m) t = alias_chain rf i t ≫= alias_chain rf m.
Proof.
  revert t. induction i as [|i IH]; intros t; [done|].
  cbn [Nat.add alias_chain]. destruct (rf !! t) as [[l|t']|]; [done|apply IH|done].
Qed.

Lemma alias_chain_earlier (i m : nat) (t : string) :
  is_Some (alias_chain rf (i + m) t) -> is_Some (alias_chain rf i t).
Proof.
  rewrite alias_chain_add. destruct (alias_chain rf i t); [by eauto|].
  by intros [? [=]].
Qed.

(** The loop is still running after [fuel] rounds exactly when the
    chain has a further element. *)
Lemma resolve_type_diverge (fuel : nat) (t : string) :
  resolve_type rf fuel t = Diverge <-> is_Some (alias_chain rf (S fuel) t).
Proof.
  revert t. induction fuel as [|fuel IH]; intros t.
  - cbn. destruct (rf !! t) as [[l|t']|]; split;
      try done; try (by intros [? [=]]); try (by eauto).
  - cbn [resolve_type].
    change (alias_chain rf (S (S fuel)) t)
      with (match rf !! t with
            | Some (AliasOf t') => alias_chain rf (S fuel) t'
            | _ => None
            end).
    destruct (rf !! t) as [[l|t']|]; [|apply IH|]; split;
      try done; try (by intros [? [=]]).
Qed.

(** More fuel does not change a result once there is one. *)
Lemma resolve_type_mono (fuel fuel' : nat) (t : string) :
  (fuel <= fuel')%nat -> resolve_type rf fuel t <> Diverge ->
  resolve_type rf fuel' t = resolve_type rf fuel t.
Proof.
  revert fuel' t. induction fuel as [|fuel IH]; intros fuel' t Hle.
  - cbn. destruct fuel'; cbn; destruct (rf !! t) as [[l|t']|]; done.
  - destruct fuel' as [|fuel']; [lia|]. cbn.
    destruct (rf !! t) as [[l|t']|]; [done| |done].
    apply IH. lia.
Qed.

(** What the loop returns was reached along the chain and is a list. *)
Lemma resolve_type_result (fuel : nat) (t t' : string) (required : list string) :
  resolve_type rf fuel t = Ok (t', required) ->
  rf !! t' = Some (FieldList required)
  /\ exists n, (n <= fuel)%nat /\ alias_chain rf n t = Some t'.
Proof.
  revert t. induction fuel as [|fuel IH]; intros t; cbn [resolve_type];
    destruct (rf !! t) as [[l|t1]|] eqn:Hl; try done.
  - intros [= <- <-]. split; [done|]. exists 0%nat. by split.
  - intros [= <- <-]. split; [done|]. exists 0%nat. split; [lia|done].
  - intros H. destruct (IH _ H) as (Hlist & n & Hn & Hchain).
    split; [done|]. exists (S n). split; [lia|]. cbn. by rewrite Hl.
Qed.

(** On a cycle the chain has elements of every index. *)
Lemma alias_cycle_chain (t : string) :
  alias_cycle rf t -> forall n, is_Some (alias_chain rf n t).
Proof.
  intros (i & j & u & Hij & Hi & Hj) n.
  induction n as [n IH] using lt_wf_ind.
  destruct (decide (n <= j)%nat) as [Hle|Hgt].
  - apply (alias_chain_earlier n (j - n)).
    replace (n + (j - n))%nat with j by lia. by eauto.
  - replace n with (j + (n - j))%nat by lia.
    rewrite alias_chain_add, Hj, <- Hi.
    change (alias_chain rf i t ≫= alias_chain rf (n - j))
      with (alias_chain rf i t ≫= alias_chain rf (n - j)).
    rewrite <- alias_chain_add. apply IH. lia.
Qed.

Lemma alias_cycle_diverges (t : string) :
  alias_cycle rf t -> forall fuel, resolve_type rf fuel t = Diverge.
Proof. intros Hcycle fuel. apply resolve_type_diverge. by apply alias_cycle_chain. Qed.

Lemma repeated_element (l : list string) :
  ~ NoDup l -> exists i j x, (i < j)%nat /\ l !! i = Some x /\ l !! j = Some x.
Proof.
  induction l as [|a l IH]; intros Hdup.
  - destruct Hdup. constructor.
  - destruct (decide (a ∈ l)) as [Hin|Hnotin].
    + apply list_elem_of_lookup in Hin as [j Hj].
      exists 0%nat, (S j), a. split; [lia|done].
    + destruct IH as (i & j & x & Hij & Hi & Hj).
      { intros Hnodup. apply Hdup. by constructor. }
      exists (S i), (S j), x. split; [lia|done].
Qed.

(** A chain longer than the configuration repeats a type. *)
Lemma long_chain_cycle (t : string) :
  is_Some (alias_chain rf (S (size rf)) t) -> alias_cycle rf t.
Proof.
  intros Hlong.
  assert (Hdef : forall k, (k <= size rf)%nat ->
                   exists u, alias_chain rf k t = Some u /\ is_Some (rf !! u)).
  { intros k Hk.
    assert (is_Some (alias_chain rf (k + 1) t)) as Hk1.
    { apply (alias_chain_earlier _ (size rf - k)).
      by replace (k + 1 + (size rf - k))%nat with (S (size rf)) by lia. }
    rewrite alias_chain_add in Hk1.
    destruct (alias_chain rf k t) as [u|]; [|by destruct Hk1 as [? [=]]].
    exists u. split; [done|]. cbn in Hk1.
    destruct (rf !! u); [by eauto|by destruct Hk1 as [? [=]]]. }
  set (l := map (fun k => default "" (alias_chain rf k t)) (seq 0 (S (size rf)))).
  assert (Hl : forall k, (k <= size rf)%nat -> l !! k = alias_chain rf k t).
  { intros k Hk. unfold l. rewrite list_lookup_fmap, lookup_seq_lt by lia.
    destruct (Hdef k Hk) as (u & Hu & _). cbn. by rewrite Hu. }
  destruct (decide (NoDup l)) as [Hnodup|Hdup].
  - exfalso.
    assert (length l <= size rf)%nat as Hlen; [|unfold l in Hlen;
      rewrite length_map, length_seq in Hlen; lia].
    rewrite <- (size_dom (D := gset string)), <- (size_list_to_set (C := gset string) l) by done.
    apply subseteq_size. intros u Hu. apply elem_of_list_to_set in Hu.
    apply list_elem_of_lookup in Hu as [k Hk].
    assert (k <= size rf)%nat as Hle.
    { apply lookup_lt_Some in Hk. unfold l in Hk.
      rewrite length_map, length_seq in Hk. lia. }
    rewrite Hl in Hk by done. destruct (Hdef k Hle) as (u' & Hu' & Hsome).
    rewrite Hk in Hu'. injection Hu' as <-. by apply elem_of_dom.
  - destruct (repeated_element l Hdup) as (i & j & u & Hij & Hi & Hj).
    assert (j <= size rf)%nat as Hle.
    { apply lookup_lt_Some in Hj. unfold l in Hj.
      rewrite length_map, length_seq in Hj. lia. }
    exists i, j, u. rewrite <- !Hl by lia. done.
Qed.

(** C5, as the code has it: the loop follows the strings of the
    configuration from the type of the entry and stops at the first
    type that is not configured as a string; what it returns is a
    configured list reached along that chain.  Nothing detects a cycle.
    Either the chain from the type does not come back to a type it has
    passed, and then the loop ends within as many rounds as the
    configuration has types, with the same result for any larger bound;
    or it does come back, and then the loop is still running after any
    number of rounds. *)
Theorem alias_resolution_ends_unless_cyclic (t : string) :
  (forall fuel t' required,
      resolve_type rf fuel t = Ok (t', required) ->
      rf !! t' = Some (FieldList required)
      /\ exists n, (n <= fuel)%nat /\ alias_chain rf n t = Some t')
  /\ ((~ alias_cycle rf t
       /\ resolve_type rf (size rf) t <> Diverge
       /\ forall fuel, (size rf <= fuel)%nat ->
                       resolve_type rf fuel t = resolve_type rf (size rf) t)
      \/ (alias_cycle rf t /\ forall fuel, resolve_type rf fuel t = Diverge)).
Proof.
  split; [intros fuel t' required; apply resolve_type_result|].
  destruct (resolve_type rf (size rf) t) as [r|e|] eqn:Hres.
  - left. split; [|split; [done|]].
    + intros Hcycle. by rewrite alias_cycle_diverges in Hres.
    + intros fuel Hle. rewrite <- Hres. apply resolve_type_mono; [done|]. by rewrite Hres.
  - left. split; [|split; [done|]].
    + intros Hcycle. by rewrite alias_cycle_diverges in Hres.
    + intros fuel Hle. rewrite <- Hres. apply resolve_type_mono; [done|]. by rewrite Hres.
  - right. apply resolve_type_diverge, long_chain_cycle in Hres.
    split; [done|by apply alias_cycle_diverges].
Qed.

End Alias.

Example conference_resolves :
  resolve_type requiredFields 1 "conference"
  = Ok ("inproceedings", ["author"; "title"; "booktitle"; "year"])
  /\ size requiredFields = 17%nat.
Proof. split; vm_compute; reflexivity. Qed.

(** An alias of a type that is not configured ends the run with
    [KeyError] when an entry of the aliased type is evaluated. *)
Example dangling_alias_raises :
  @main env2024 2 dangling_config None
    (file ["@conference{doe2020,"; "}"; "@misc{end,"; "}"]) = Raise KeyError.
Proof. vm_compute. reflexivity. Qed.

Lemma cyclic_config_cycle : alias_cycle cyclic_config "conference".
Proof. exists 0%nat, 2%nat, "conference". split; [lia|]. split; vm_compute; reflexivity. Qed.

Lemma loop_app `{E : Env} (used : gset string) (rf : gmap string requirement) (fuel : nat)
    (l1 l2 : list string) (st : state) :
  loop used rf fuel st (l1 ++ l2) = loop used rf fuel st l1 ≫= fun st' => loop used rf fuel st' l2.
Proof.
  revert st. induction l1 as [|line l1 IH]; intros st; [done|].
  cbn [app loop]. destruct (step used rf fuel st line) as [st1| |]; [|done..].
  apply IH.
Qed.

Lemma finalize_cycle_diverges `{E : Env} (used : gset string)
    (rf : gmap string requirement) (fuel : nat) (st : state) :
  in_scope used st = true -> alias_cycle rf (currentType st) ->
  finalize used rf fuel st = Diverge.
Proof.
  intros Hscope Hcycle. unfold finalize, check_required. rewrite Hscope.
  rewrite bool_decide_eq_true_2.
  - by rewrite (alias_cycle_diverges _ _ Hcycle).
  - pose proof (alias_cycle_chain _ _ Hcycle 1%nat) as Hone. cbn in Hone.
    destruct (rf !! currentType st); [by eauto|by destruct Hone as [? [=]]].
Qed.

Lemma step_cycle_diverges `{E : Env} (used : gset string)
    (rf : gmap string requirement) (fuel : nat) (st : state) (line : string) :
  Py.startswith (Py.strip (Py.str Py.nl) line) "@" = true ->
  in_scope used st = true -> alias_cycle rf (currentType st) ->
  step used rf fuel st line = Diverge.
Proof.
  intros Hat Hscope Hcycle. unfold step. cbv zeta. rewrite Hat.
  by rewrite finalize_cycle_diverges.
Qed.

(** C5, as stated, fails: [conference] and [inproceedings] are
    configured as aliases of each other.  When the entry of type
    [conference] is evaluated, at the line starting the next entry, the
    alias loop does not end, whatever bound is put on its rounds; no
    configuration error is reported before. *)
Lemma alias_cycle_is_not_detected :
  ~ exists fuel,
      @main env2024 fuel cyclic_config None
        (file ["@conference{doe2020,"; "}"; "@misc{end,"; "}"]) <> Diverge.
Proof.
  intros [fuel Hends]. apply Hends. clear Hends.
  assert (exists st, @loop env2024 ∅ cyclic_config fuel initial
                       (file ["@conference{doe2020,"; "}"]) = Ok st
                     /\ in_scope ∅ st = true /\ currentType st = "conference")
    as (st & Hst & Hscope & Htype).
  { eexists. split; [vm_compute; reflexivity|]. split; vm_compute; reflexivity. }
  assert (@loop env2024 ∅ cyclic_config fuel initial
            (file ["@conference{doe2020,"; "}"] ++ file ["@misc{end,"; "}"]) = Diverge)
    as Hloop.
  { rewrite loop_app, Hst, outcome_bind_ok.
    apply (@diverge_is_final env2024).
    apply step_cycle_diverges; [vm_compute; reflexivity|done|].
    rewrite Htype. apply cyclic_config_cycle. }
  unfold main, read_aux. rewrite outcome_bind_ok.
  change (file ["@conference{doe2020,"; "}"; "@misc{end,"; "}"])
    with (file ["@conference{doe2020,"; "}"] ++ file ["@misc{end,"; "}"])%list.
  by rewrite Hloop.
Qed.

(** * Further properties of the script

    ** What a check may change *)

(** [checked k st st']: from [st] to [st'] messages were appended to
    [subproblems] and counted, all but [k] of them; the entry, the
    registry of identifiers, the report and the recorded fields are as
    they were, and no counter went down. *)
Definition checked (k : nat) (st st' : state) : Prop :=
  currentId st' = currentId st /\ currentType st' = currentType st
  /\ citations st' = citations st /\ problems st' = problems st
  /\ lineNo st' = lineNo st /\ completeEntry st' = completeEntry st
  /\ fields st' = fields st
  /\ counterNonUniqueId st' = counterNonUniqueId st
  /\ (counterMissingFields st <= counterMissingFields st')%nat
  /\ (counterFlawedNames st <= counterFlawedNames st')%nat
  /\ (counterWrongTypes st <= counterWrongTypes st')%nat
  /\ exists msgs,
      subproblems st' = (subproblems st ++ msgs)%list
      /\ (problemCount st' + k = problemCount st + length msgs)%nat.

Lemma checked_refl (st : state) : checked 0 st st.
Proof.
  repeat split; try done. exists []. split; [by rewrite app_nil_r|simpl; lia].
Qed.

Lemma checked_trans (k1 k2 : nat) (st1 st2 st3 : state) :
  checked k1 st1 st2 -> checked k2 st2 st3 -> checked (k1 + k2) st1 st3.
Proof.
  intros (A1 & A2 & A3 & A4 & A5 & A6 & A7 & A8 & A9 & A10 & A11 & m1 & A12 & A13)
         (B1 & B2 & B3 & B4 & B5 & B6 & B7 & B8 & B9 & B10 & B11 & m2 & B12 & B13).
  repeat split; try congruence; try lia.
  exists (m1 ++ m2)%list. split; [by rewrite B12, A12, app_assoc|].
  rewrite length_app. lia.
Qed.

Ltac checked_primitive msg :=
  repeat split; try done; cbn; try lia;
  exists [msg]; split; [done|unfold problemCount; cbn; lia].

Lemma checked_missing_field (msg : string) (st : state) :
  checked 0 st (missing_field msg st).
Proof. checked_primitive msg. Qed.

Lemma checked_flawed_name (msg : string) (st : state) :
  checked 0 st (flawed_name msg st).
Proof. checked_primitive msg. Qed.

Lemma checked_wrong_type (msg : string) (st : state) :
  checked 0 st (wrong_type msg st).
Proof. checked_primitive msg. Qed.

Lemma checked_append_subproblem (msg : string) (st : state) :
  checked 1 st (append_subproblem msg st).
Proof. checked_primitive msg. Qed.

Lemma checked_fold {A : Type} (f : state -> A -> state) (l : list A) (st : state) :
  (forall st a, checked 0 st (f st a)) -> checked 0 st (fold_left f l st).
Proof.
  intros Hf. revert st. induction l as [|a l IH]; intros st; simpl.
  - apply checked_refl.
  - apply (checked_trans 0 0 _ _ _ (Hf st a) (IH _)).
Qed.

Create HintDb checks.

#[local] Hint Resolve checked_refl checked_missing_field checked_flawed_name
  checked_wrong_type : checks.

Section FieldChecks.

Context {E : Env}.

Lemma checked_check_null (field value : string) (st : state) :
  checked 0 st (check_null field value st).
Proof. unfold check_null. case_ifs; auto with checks. Qed.

Lemma checked_check_author (value : string) (st : state) :
  checked 0 st (check_author value st).
Proof.
  unfold check_author. cbv zeta.
  match goal with
  | |- context [fold_left ?f ?l st] =>
      assert (checked 0 st (fold_left f l st)) as Hfold
        by (apply checked_fold; intros st0 a; case_ifs; auto with checks);
      generalize dependent (fold_left f l st)
  end.
  intros st1 H1.
  set (st2 := if (Py.contains "{" value || Py.contains "}" value) then _ else st1).
  assert (checked 0 st1 st2) as H2 by (unfold st2; case_ifs; auto with checks).
  clearbody st2.
  apply (checked_trans 0 0 _ _ _ H1). apply (checked_trans 0 0 _ _ _ H2).
  case_ifs; auto with checks.
Qed.

Lemma checked_check_year (value : string) (st : state) :
  checked 0 st (check_year value st).
Proof.
  unfold check_year. cbv zeta.
  set (st1 := match Py.int value with Some _ => _ | None => _ end).
  assert (checked 0 st st1) as H1 by (unfold st1; case_ifs; auto with checks).
  clearbody st1. apply (checked_trans 0 0 _ _ _ H1). case_ifs; auto with checks.
Qed.

(** The advisory on pages starting at 1 is the one message that no
    counter records. *)
Definition advisory (field value : string) : nat :=
  if String.eqb field "pages" && Py.startswith value "1--" then 1%nat else 0%nat.

Lemma checked_check_field (line : string) (st st' : state) :
  check_field line st = Ok st' ->
  checked (advisory (field_of line) (value_of line))
    (set_fields (fields st ++ [field_of line]) st) st'.
Proof.
  unfold check_field. cbv zeta. fold (field_of line). fold (value_of line).
  set (field := field_of line). set (value := value_of line).
  set (st0 := set_fields _ st).
  set (st1 := check_null _ _ _).
  assert (H1 : checked 0 st0 st1) by apply checked_check_null.
  set (st2 := if String.eqb field "author" then _ else _).
  assert (H2 : checked 0 st1 st2)
    by (unfold st2; destruct (String.eqb field "author");
        [apply checked_check_author|apply checked_refl]).
  set (st3 := if String.eqb field "year" then _ else _).
  assert (H3 : checked 0 st2 st3)
    by (unfold st3; destruct (String.eqb field "year");
        [apply checked_check_year|apply checked_refl]).
  set (st4 := if String.eqb field "pages" then _ else _).
  assert (H4 : checked (advisory field value) st3 st4).
  { unfold st4, advisory, check_pages.
    destruct (String.eqb field "pages"); cbn [andb]; [|apply checked_refl].
    destruct (Py.startswith value "1--");
      [apply checked_append_subproblem|apply checked_refl]. }
  set (st5 := if String.eqb field "urldate" then _ else _).
  assert (H5 : checked 0 st4 st5)
    by (unfold st5, check_urldate_format; case_ifs; auto with checks).
  set (st6 := if String.eqb field "citeulike-article-id" then _ else _).
  assert (H6 : checked 0 st5 st6)
    by (unfold st6; case_ifs; [by repeat split; try done; exists []; rewrite app_nil_r
                              |apply checked_refl]).
  set (st7 := if String.eqb field "title" then _ else _).
  assert (H7 : checked 0 st6 st7)
    by (unfold st7; case_ifs; [by repeat split; try done; exists []; rewrite app_nil_r
                              |apply checked_refl]).
  assert (H07 : checked (advisory field value) st0 st7).
  { pose proof (checked_trans _ _ _ _ _ H1 H2) as H.
    pose proof (checked_trans _ _ _ _ _ H H3) as H'.
    pose proof (checked_trans _ _ _ _ _ H' H4) as H''.
    pose proof (checked_trans _ _ _ _ _ H'' H5) as H'''.
    pose proof (checked_trans _ _ _ _ _ H''' H6) as H''''.
    pose proof (checked_trans _ _ _ _ _ H'''' H7) as Hall.
    cbn in Hall. by rewrite !Nat.add_0_r in Hall. }
  clearbody st7. clear - H07.
  intros Hdoi.
  assert (exists st8, st' = check_journal line field value (check_proceedings field st8)
                      /\ st8 = st7) as (st8 & -> & ->).
  { unfold check_doi in Hdoi.
    destruct (String.eqb field "doi"); [destruct (Py.startswith value "http")|];
      cbn in Hdoi; try done; injection Hdoi as <-; by eexists. }
  replace (advisory field value) with (advisory field value + (0 + 0))%nat by lia.
  apply (checked_trans _ _ _ _ _ H07).
  apply (checked_trans 0 0 _ (check_proceedings field st7)).
  - unfold check_proceedings. case_ifs; auto with checks.
  - unfold check_journal. case_ifs; auto with checks.
Qed.

End FieldChecks.

(** ** One line at a time *)

Lemma append_empty_r (s : string) : s ++ "" = s.
Proof. induction s as [|c s IH]; [done|]. by rewrite append_cons, IH. Qed.

Section Steps.

Context {E : Env}.
Variable used_cits : gset string.
Variable rf : gmap string requirement.
Variable fuel : nat.

Lemma in_scope_same_id (st st' : state) :
  currentId st' = currentId st -> in_scope used_cits st' = in_scope used_cits st.
Proof. unfold in_scope. by intros ->. Qed.

(** A line of an entry: what [entry_contents] leaves behind. *)
Lemma entry_contents_spec (line : string) (st st' : state) :
  entry_contents used_cits line st = Ok st' ->
  let read := in_scope used_cits st && Py.contains "=" line in
  checked (if read then advisory (field_of line) (value_of line) else 0)
    (set_fields (if read then fields st ++ [field_of line] else fields st)
       (set_completeEntry
          (completeEntry st ++ if String.eqb line "" then "" else line ++ "<br />") st))
    st'.
Proof.
  unfold entry_contents.
  set (st0 := if String.eqb line "" then st else _).
  assert (Hst0 : st0 = set_completeEntry
                         (completeEntry st ++ if String.eqb line "" then "" else line ++ "<br />")
                         st).
  { unfold st0. destruct (String.eqb line "") eqn:Hline; [|done].
    rewrite append_empty_r. by destruct st. }
  assert (Hscope : in_scope used_cits st0 = in_scope used_cits st)
    by (rewrite Hst0; by apply in_scope_same_id).
  rewrite Hscope. clearbody st0. subst st0.
  destruct (in_scope used_cits st); cbn [andb].
  - destruct (Py.contains "=" line).
    + intros H. apply checked_check_field in H. exact H.
    + intros [= <-]. destruct st; apply checked_refl.
  - intros [= <-]. destruct st; apply checked_refl.
Qed.

(** The entry that was pending, when it is in scope: the messages of
    the record-level checks are appended and counted, and one block is
    appended which shows the messages of the entry. *)
Lemma finalize_in_scope (st st' : state) :
  in_scope used_cits st = true ->
  finalize used_cits rf fuel st = Ok st' ->
  exists t st1,
    checked 0 (set_currentType t st) st1
    /\ st' = set_problems (problems st ++ [render_problem st1]) st1
    /\ (rf !! currentType st = None /\ t = currentType st
        \/ exists required, resolve_type rf fuel (currentType st) = Ok (t, required)).
Proof.
  intros Hscope. unfold finalize, check_required. rewrite Hscope.
  assert (Hurl : forall s, checked 0 s (check_url_doi (check_urldate s))).
  { intros s. apply (checked_trans 0 0 _ (check_urldate s)).
    - unfold check_urldate. case_ifs; auto with checks.
    - unfold check_url_doi. case_ifs; auto with checks. }
  assert (Happ : forall s s1, checked 0 s s1 -> currentId s = currentId st ->
                   problems s = problems st ->
                   append_problem used_cits s1
                   = set_problems (problems st ++ [render_problem s1]) s1).
  { intros s s1 (Hid & _ & _ & Hp & _) Hids Hps. unfold append_problem.
    rewrite (in_scope_same_id st s1) by congruence. rewrite Hscope. congruence. }
  destruct (bool_decide (is_Some (rf !! currentType st))) eqn:Hin.
  - destruct (resolve_type rf fuel (currentType st)) as [[t required]| |] eqn:Hres;
      cbn; [|done..].
    intros [= <-].
    assert (checked 0 (set_currentType t st)
              (check_url_doi (check_urldate
                 (missing_fields required (set_currentType t st))))) as Hall.
    { apply (checked_trans 0 0 _ (missing_fields required (set_currentType t st))).
      - unfold missing_fields. apply checked_fold. intros s a. case_ifs; auto with checks.
      - apply Hurl. }
    exists t. eexists. split; [exact Hall|]. split.
    + by apply (Happ (set_currentType t st)).
    + right. by eexists.
  - cbn. intros [= <-]. exists (currentType st). eexists.
    assert (set_currentType (currentType st) st = st) as Hsame by (by destruct st).
    rewrite Hsame. split; [apply Hurl|]. split; [by apply (Happ st)|].
    left. split; [|done]. apply bool_decide_eq_false_1 in Hin.
    destruct (rf !! currentType st); [|done]. destruct Hin. by eexists.
Qed.

(** The entry that was pending, when it is out of scope: its messages
    are dropped, and no block is appended. *)
Lemma finalize_out_of_scope (st : state) :
  in_scope used_cits st = false ->
  exists st', finalize used_cits rf fuel st = Ok st'
    /\ checked 0 (set_subproblems [] st) st'.
Proof.
  intros Hscope. unfold finalize, check_required. rewrite Hscope. cbn.
  eexists. split; [reflexivity|].
  unfold append_problem.
  assert (Hurl : checked 0 (set_subproblems [] st)
                   (check_url_doi (check_urldate (set_subproblems [] st)))).
  { apply (checked_trans 0 0 _ (check_urldate (set_subproblems [] st))).
    - unfold check_urldate. case_ifs; auto with checks.
    - unfold check_url_doi. case_ifs; auto with checks. }
  rewrite (in_scope_same_id st) by (destruct Hurl as (-> & _); done).
  by rewrite Hscope.
Qed.

(** The first line of an entry. *)
Lemma start_entry_spec (line : string) (st st' : state) :
  start_entry line st = Ok st' ->
  problems st' = problems st /\ lineNo st' = lineNo st /\ fields st' = []
  /\ completeEntry st' = line ++ "<br />"
  /\ counterMissingFields st' = counterMissingFields st
  /\ counterWrongTypes st' = counterWrongTypes st
  /\ (counterFlawedNames st <= counterFlawedNames st')%nat
  /\ Py.no_upper (currentId st') = true
  /\ (problemCount st' = problemCount st + length (subproblems st'))%nat
  /\ (((currentId st' ∈ citations st) /\ citations st' = citations st
       /\ counterNonUniqueId st' = S (counterNonUniqueId st))
      \/ ((currentId st' ∉ citations st)
          /\ citations st' = (citations st ++ [currentId st'])%list
          /\ counterNonUniqueId st' = counterNonUniqueId st)).
Proof.
  unfold start_entry. destruct (Py.split "{" line !! 1%nat) as [rest|]; [|done].
  cbv zeta. intros [= <-].
  set (id := Py.strip_ws (Py.lower (Py.rstrip ("," ++ Py.str Py.nl) rest))).
  assert (Hid : Py.no_upper id = true) by apply all_chars_strip, no_upper_lower.
  change (currentId (set_currentId id (set_subproblems [] (set_fields [] st)))) with id.
  change (citations (set_currentId id (set_subproblems [] (set_fields [] st))))
    with (citations st).
  destruct (mem id (citations st)) eqn:Hmem.
  - apply mem_elem_of in Hmem.
    destruct (String.eqb _ "") eqn:Hempty; cbn in Hempty |- *; rewrite ?Hempty;
      unfold problemCount; cbn; repeat split; try done; try lia; left; repeat split;
      try done; lia.
  - assert (id ∉ citations st) as Hnotin by (rewrite <- mem_elem_of; congruence).
    destruct (String.eqb _ "") eqn:Hempty; cbn in Hempty |- *; rewrite ?Hempty;
      unfold problemCount; cbn; repeat split; try done; try lia; right; done.
Qed.

(** The two shapes of [step]. *)
Lemma step_entry_line (st st' : state) (line : string) :
  starts_entry line = true ->
  step used_cits rf fuel st line = Ok st' ->
  exists st1,
    finalize used_cits rf fuel (set_lineNo (lineNo st + 1) st) = Ok st1
    /\ start_entry (Py.strip (Py.str Py.nl) line) st1 = Ok st'.
Proof.
  unfold starts_entry, step. cbv zeta. intros ->.
  destruct (finalize _ _ _ _) as [st1| |]; cbn; [|done..].
  intros H. by exists st1.
Qed.

Lemma step_other_line (st : state) (line : string) :
  starts_entry line = false ->
  step used_cits rf fuel st line
  = entry_contents used_cits (Py.strip (Py.str Py.nl) line) (set_lineNo (lineNo st + 1) st).
Proof. unfold starts_entry, step. cbv zeta. by intros ->. Qed.

End Steps.

(** ** The whole file *)

Section Runs.

Context {E : Env}.
Variable used_cits : gset string.
Variable rf : gmap string requirement.
Variable fuel : nat.

Lemma finalize_facts (st st' : state) :
  finalize used_cits rf fuel st = Ok st' ->
  currentId st' = currentId st /\ citations st' = citations st
  /\ lineNo st' = lineNo st /\ fields st' = fields st
  /\ completeEntry st' = completeEntry st
  /\ counterNonUniqueId st' = counterNonUniqueId st
  /\ (counterMissingFields st <= counterMissingFields st')%nat
  /\ (counterFlawedNames st <= counterFlawedNames st')%nat
  /\ (counterWrongTypes st <= counterWrongTypes st')%nat
  /\ problems st' =
     (problems st ++ if in_scope used_cits st then [render_problem st'] else [])%list.
Proof.
  intros Hfin. destruct (in_scope used_cits st) eqn:Hscope.
  - destruct (finalize_in_scope _ _ _ _ _ Hscope Hfin)
      as (t & st1 & (A1 & A2 & A3 & A4 & A5 & A6 & A7 & A8 & A9 & A10 & A11 & _) & -> & _).
    cbn in *. repeat split; try done.
  - destruct (finalize_out_of_scope used_cits rf fuel _ Hscope)
      as (st1 & Hfin' & (A1 & A2 & A3 & A4 & A5 & A6 & A7 & A8 & A9 & A10 & A11 & _)).
    rewrite Hfin in Hfin'. injection Hfin' as <-.
    cbn in *. rewrite app_nil_r. repeat split; try done.
Qed.

(** What one round of the loop does to the registry of identifiers,
    to the report and to the counters. *)
Lemma step_facts (st st' : state) (line : string) :
  step used_cits rf fuel st line = Ok st' ->
  lineNo st' = (lineNo st + 1)%nat
  /\ (counterMissingFields st <= counterMissingFields st')%nat
  /\ (counterFlawedNames st <= counterFlawedNames st')%nat
  /\ (counterWrongTypes st <= counterWrongTypes st')%nat
  /\ (counterNonUniqueId st <= counterNonUniqueId st')%nat
  /\ if starts_entry line then
       problems st' =
         (problems st ++ if in_scope used_cits st
                         then drop (length (problems st)) (problems st') else [])%list
       /\ length (problems st') =
          (length (problems st) + if in_scope used_cits st then 1 else 0)%nat
       /\ Py.no_upper (currentId st') = true
       /\ (((currentId st' ∈ citations st) /\ citations st' = citations st
            /\ counterNonUniqueId st' = S (counterNonUniqueId st))
           \/ ((currentId st' ∉ citations st)
               /\ citations st' = (citations st ++ [currentId st'])%list
               /\ counterNonUniqueId st' = counterNonUniqueId st))
     else
       problems st' = problems st /\ citations st' = citations st
       /\ currentId st' = currentId st
       /\ counterNonUniqueId st' = counterNonUniqueId st.
Proof.
  intros Hstep. destruct (starts_entry line) eqn:Hat.
  - destruct (step_entry_line _ _ _ _ _ _ Hat Hstep) as (st1 & Hfin & Hstart).
    apply finalize_facts in Hfin
      as (F1 & F2 & F3 & F4 & F5 & F6 & F7 & F8 & F9 & F10).
    apply start_entry_spec in Hstart
      as (S1 & S2 & S3 & S4 & S5 & S6 & S7 & S8 & S9 & S10).
    cbn in F1, F2, F3, F4, F5, F6, F7, F8, F9, F10.
    change (in_scope used_cits (set_lineNo (lineNo st + 1) st))
      with (in_scope used_cits st) in F10.
    rewrite F2, F6 in S10.
    assert (counterNonUniqueId st <= counterNonUniqueId st')%nat as HN
      by (destruct S10 as [(_ & _ & H)|(_ & _ & H)]; lia).
    do 5 (split; [lia|]).
    split; [|split; [|split; [done|done]]].
    + rewrite S1, F10. destruct (in_scope used_cits st); [|done].
      by rewrite drop_app_length.
    + rewrite S1, F10, length_app. by destruct (in_scope used_cits st).
  - rewrite step_other_line in Hstep by done.
    apply entry_contents_spec in Hstep
      as (A1 & A2 & A3 & A4 & A5 & A6 & A7 & A8 & A9 & A10 & A11 & _).
    cbn in *. do 5 (split; [lia|]). done.
Qed.

Lemma entry_lines_cons (line : string) (lines : list string) :
  entry_lines (line :: lines)
  = ((if starts_entry line then 1 else 0) + entry_lines lines)%nat.
Proof.
  unfold entry_lines. rewrite filter_cons.
  destruct (starts_entry line); [by rewrite decide_True|by rewrite decide_False].
Qed.

Lemma loop_cons (st st' : state) (line : string) (lines : list string) :
  loop used_cits rf fuel st (line :: lines) = Ok st' ->
  exists st1, step used_cits rf fuel st line = Ok st1
              /\ loop used_cits rf fuel st1 lines = Ok st'.
Proof.
  cbn. destruct (step used_cits rf fuel st line) as [st1| |]; cbn; [|done..].
  intros H. by exists st1.
Qed.

(** X4: along a run nothing once recorded is taken back.  The blocks
    collected so far stay the first blocks of [problems], the
    identifiers registered so far stay the first of [citations], none
    of the four counters goes down, and [lineNo] ends as the number of
    lines read. *)
Theorem run_only_adds (lines : list string) (st st' : state) :
  loop used_cits rf fuel st lines = Ok st' ->
  problems st `prefix_of` problems st'
  /\ citations st `prefix_of` citations st'
  /\ (counterMissingFields st <= counterMissingFields st')%nat
  /\ (counterFlawedNames st <= counterFlawedNames st')%nat
  /\ (counterWrongTypes st <= counterWrongTypes st')%nat
  /\ (counterNonUniqueId st <= counterNonUniqueId st')%nat
  /\ lineNo st' = (lineNo st + length lines)%nat.
Proof.
  revert st. induction lines as [|line lines IH]; intros st Hloop.
  - injection Hloop as <-. cbn. repeat split; try done; lia.
  - apply loop_cons in Hloop as (st1 & Hstep & Hloop).
    destruct (IH _ Hloop) as (I1 & I2 & I3 & I4 & I5 & I6 & I7).
    apply step_facts in Hstep as (L & C1 & C2 & C3 & C4 & Hline).
    assert (problems st `prefix_of` problems st1 /\ citations st `prefix_of` citations st1)
      as [P1 P2].
    { destruct (starts_entry line).
      - destruct Hline as (Hp & _ & _ & Hc). split.
        + rewrite Hp. by apply prefix_app_r.
        + destruct Hc as [(_ & -> & _)|(_ & -> & _)]; [done|by apply prefix_app_r].
      - destruct Hline as (-> & -> & _). done. }
    cbn [length]. repeat split; try lia; by etrans.
Qed.

(** X3: the registry of identifiers.  After any run that comes to its
    end, [citations] holds no identifier twice and none with a capital
    letter, and every line that starts an entry either registered its
    identifier or was counted as a non-unique id: the two numbers add
    up to the number of such lines. *)
Theorem registry_of_identifiers (lines : list string) (st : state) :
  loop used_cits rf fuel initial lines = Ok st ->
  NoDup (citations st)
  /\ Forall (fun id => Py.no_upper id = true) (citations st)
  /\ (length (citations st) + counterNonUniqueId st = entry_lines lines)%nat.
Proof.
  assert (Hgen : forall lines st0 st,
             loop used_cits rf fuel st0 lines = Ok st ->
             NoDup (citations st0) ->
             Forall (fun id => Py.no_upper id = true) (citations st0) ->
             NoDup (citations st)
             /\ Forall (fun id => Py.no_upper id = true) (citations st)
             /\ (length (citations st) + counterNonUniqueId st
                 = length (citations st0) + counterNonUniqueId st0 + entry_lines lines)%nat).
  { clear lines st. induction lines as [|line lines IH]; intros st0 st Hloop Hnd Hlow.
    - injection Hloop as <-. cbn. repeat split; try done; lia.
    - apply loop_cons in Hloop as (st1 & Hstep & Hloop).
      apply step_facts in Hstep as (_ & _ & _ & _ & _ & Hline).
      rewrite entry_lines_cons. destruct (starts_entry line).
      + destruct Hline as (_ & _ & Hid & [(Hin & Hc & Hn)|(Hnotin & Hc & Hn)]).
        * destruct (IH _ _ Hloop) as (I1 & I2 & I3); [by rewrite Hc..|].
          rewrite Hc, Hn in I3. repeat split; try done; lia.
        * destruct (IH _ _ Hloop) as (I1 & I2 & I3).
          { rewrite Hc. apply NoDup_app. repeat split; [done| |apply NoDup_singleton].
            intros x Hx Hx'. apply list_elem_of_singleton in Hx'. by subst x. }
          { rewrite Hc. apply Forall_app. split; [done|]. by constructor. }
          rewrite Hc, Hn, length_app in I3. cbn in I3. repeat split; try done; lia.
      + destruct Hline as (_ & Hc & _ & Hn).
        destruct (IH _ _ Hloop) as (I1 & I2 & I3); [by rewrite Hc..|].
        rewrite Hc, Hn in I3. repeat split; try done; lia. }
  intros Hloop. destruct (Hgen _ _ _ Hloop) as (H1 & H2 & H3); [constructor..|].
  cbn in H3. repeat split; try done; lia.
Qed.

End Runs.

(** X2: without a usage set every line that starts an entry appends
    one block, that of the entry pending before it (for the first such
    line the empty entry of the initial variables): the report of a run
    that comes to its end has as many blocks as the file has lines
    starting with [@]. *)
Theorem one_block_per_entry_line `{E : Env} (rf : gmap string requirement) (fuel : nat)
    (lines : list string) (st : state) :
  loop ∅ rf fuel initial lines = Ok st ->
  length (problems st) = entry_lines lines
  /\ length (entries (make_report st)) = entry_lines lines.
Proof.
  assert (Hgen : forall lines st0 st,
             loop ∅ rf fuel st0 lines = Ok st ->
             length (problems st) = (length (problems st0) + entry_lines lines)%nat).
  { clear lines st. induction lines as [|line lines IH]; intros st0 st Hloop.
    - injection Hloop as <-. cbn. lia.
    - apply loop_cons in Hloop as (st1 & Hstep & Hloop).
      apply step_facts in Hstep as (_ & _ & _ & _ & _ & Hline).
      rewrite entry_lines_cons, (IH _ _ Hloop). destruct (starts_entry line).
      + destruct Hline as (_ & -> & _).
        assert (in_scope ∅ st0 = true) as ->; [|lia].
        unfold in_scope. rewrite (bool_decide_eq_true_2 (∅ = ∅)) by done.
        apply orb_true_r.
      + destruct Hline as (-> & _). lia. }
  intros Hloop. pose proof (Hgen _ _ _ Hloop) as Hlen. cbn in Hlen.
  split; [done|]. cbn. unfold sort. by rewrite merge_sort_Permutation.
Qed.

(** ** The lines of one entry *)

Lemma append_assoc_str (a b c : string) : (a ++ b) ++ c = a ++ (b ++ c).
Proof. induction a as [|x a IH]; [done|]. by rewrite !append_cons, IH. Qed.


(** X6: when the pending entry is in scope and a line starting the next
    entry is reached, the messages of the record-level checks are
    appended to those of the entry and each is counted once; then one
    block is appended to the report, and it is the rendering of the
    entry with all these messages.  Identifier, fields and registry are
    untouched. *)
Theorem pending_entry_is_reported `{E : Env} (used_cits : gset string)
    (rf : gmap string requirement) (fuel : nat) (st st' : state) :
  in_scope used_cits st = true ->
  finalize used_cits rf fuel st = Ok st' ->
  problems st' = (problems st ++ [render_problem st'])%list
  /\ (exists msgs,
        subproblems st' = (subproblems st ++ msgs)%list
        /\ problemCount st' = (problemCount st + length msgs)%nat)
  /\ currentId st' = currentId st /\ fields st' = fields st
  /\ citations st' = citations st
  /\ (rf !! currentType st = None -> currentType st' = currentType st).
Proof.
  intros Hscope Hfin.
  destruct (finalize_in_scope _ _ _ _ _ Hscope Hfin)
    as (t & st1 & (A1 & A2 & A3 & A4 & A5 & A6 & A7 & A8 & A9 & A10 & A11 & msgs & A12 & A13)
        & -> & Ht).
  cbn in *. repeat split; try done.
  - exists msgs. split; [done|]. unfold problemCount in *. cbn in *. lia.
  - intros Hnone. destruct Ht as [[_ ->]|[required Hres]]; [done|].
    destruct fuel; cbn in Hres; by rewrite Hnone in Hres.
Qed.

Section EntryLines.

Context {E : Env}.
Variable used_cits : gset string.
Variable rf : gmap string requirement.
Variable fuel : nat.

Lemma entry_lines_loop (lines : list string) (st st' : state) :
  Forall (fun line => starts_entry line = false) lines ->
  loop used_cits rf fuel st lines = Ok st' ->
  currentId st' = currentId st
  /\ completeEntry st' = completeEntry st ++ echoed lines
  /\ fields st' = (fields st ++ if in_scope used_cits st then assigned lines else [])%list.
Proof.
  intros Hall. revert st. induction Hall as [|line lines Hline _ IH]; intros st Hloop.
  - injection Hloop as <-. cbn [echoed]. rewrite append_empty_r.
    unfold assigned. cbn. destruct (in_scope used_cits st); by rewrite app_nil_r.
  - apply loop_cons in Hloop as (st1 & Hstep & Hloop).
    rewrite step_other_line in Hstep by done.
    apply entry_contents_spec in Hstep
      as (A1 & _ & _ & _ & _ & A6 & A7 & _).
    cbn in A1, A6, A7.
    change (in_scope used_cits (set_lineNo (lineNo st + 1) st))
      with (in_scope used_cits st) in A7.
    destruct (IH _ Hloop) as (I1 & I2 & I3).
    rewrite (in_scope_same_id used_cits st st1) in I3 by done.
    split; [congruence|]. split.
    + rewrite I2, A6. cbn [echoed]. by rewrite append_assoc_str.
    + rewrite I3, A7. unfold assigned. cbn [map]. rewrite filter_cons.
      destruct (in_scope used_cits st); cbn [andb]; [|by rewrite !app_nil_r].
      destruct (Py.contains "=" (Py.strip (Py.str Py.nl) line)).
      * rewrite decide_True by done. cbn [map]. by rewrite <- app_assoc.
      * by rewrite decide_False.
Qed.

(** X8: the raw text shown for an entry.  Over lines that do not start
    an entry, [completeEntry] grows by each non-empty line followed by
    a break, in the order of the file, whether the entry is in scope or
    not and whatever the lines contain. *)
Theorem entry_text_is_echoed (lines : list string) (st st' : state) :
  Forall (fun line => starts_entry line = false) lines ->
  loop used_cits rf fuel st lines = Ok st' ->
  completeEntry st' = completeEntry st ++ echoed lines.
Proof. intros Hall Hloop. by destruct (entry_lines_loop _ _ _ Hall Hloop) as (_ & H & _). Qed.


End EntryLines.

(** ** How a run can fail *)

Lemma requiredFields_flat : flat requiredFields.
Proof.
  unfold flat. apply map_Forall_to_list.
  vm_compute. repeat constructor.
Qed.

Section Failures.

Context {E : Env}.
Variable used_cits : gset string.
Variable rf : gmap string requirement.
Variable fuel : nat.

Hypothesis rf_flat : flat rf.
Hypothesis some_fuel : (1 <= fuel)%nat.

Lemma flat_resolves (t : string) :
  is_Some (rf !! t) -> exists r, resolve_type rf fuel t = Ok r.
Proof.
  intros [v Hv]. destruct fuel as [|n]; [lia|]. cbn. rewrite Hv.
  pose proof (rf_flat t v Hv) as Hsettled. destruct v as [l|t']; [by eexists|].
  cbn in Hsettled. destruct n; cbn; destruct (rf !! t') as [[l|]|]; try done; by eexists.
Qed.

Lemma flat_finalize (st : state) : exists st', finalize used_cits rf fuel st = Ok st'.
Proof.
  unfold finalize, check_required.
  destruct (in_scope used_cits st); [|by eexists].
  destruct (bool_decide (is_Some (rf !! currentType st))) eqn:Hin; [|by eexists].
  apply bool_decide_eq_true_1 in Hin. destruct (flat_resolves _ Hin) as [[t l] ->].
  by eexists.
Qed.

Lemma flat_step (st : state) (line : string) :
  match step used_cits rf fuel st line with
  | Ok _ => True
  | Raise e => e = IndexError /\ headless line \/ e = NameError /\ doi_url line
  | Diverge => False
  end.
Proof.
  destruct (starts_entry line) eqn:Hat.
  - unfold step. cbv zeta. unfold starts_entry in Hat. rewrite Hat.
    destruct (flat_finalize (set_lineNo (lineNo st + 1) st)) as [st1 ->].
    rewrite outcome_bind_ok. unfold start_entry.
    destruct (Py.split "{" _ !! 1%nat) eqn:Hsplit; [done|].
    left. by repeat split.
  - rewrite step_other_line by done. unfold entry_contents.
    set (st0 := if String.eqb _ "" then _ else _).
    destruct (in_scope used_cits st0); [|done].
    destruct (Py.contains "=" _) eqn:Heq; [|done].
    unfold check_field. cbv zeta.
    fold (field_of (Py.strip (Py.str Py.nl) line)).
    fold (value_of (Py.strip (Py.str Py.nl) line)).
    destruct (String.eqb (field_of _) "doi") eqn:Hdoi; [|done].
    unfold check_doi.
    destruct (Py.startswith (value_of _) "http") eqn:Hhttp; [|done].
    cbn. right. split; [done|]. repeat split; try done. by apply String.eqb_eq.
Qed.


End Failures.


(** ** The usage listing *)

Lemma citation_line_outcome (used : gset string) (line : string) :
  "" ∉ used ->
  match citation_line used line with
  | Ok used' => ("" ∉ used') /\ ~ braceless_citation line
  | Raise e => e = IndexError /\ braceless_citation line
  | Diverge => False
  end.
Proof.
  intros Hused. unfold citation_line, braceless_citation.
  destruct (Py.startswith line "\citation");
    [|split; [done|intros [Hstart _]; discriminate Hstart]].
  destruct (Py.split "{" line !! 1%nat) as [grp|]; [|by split].
  split; [|intros [_ Hnone]; discriminate Hnone].
  generalize (Py.split ", " (Py.rstrip ("} " ++ Py.str Py.nl) grp)).
  intros cits. revert used Hused.
  induction cits as [|cit cits IH]; intros used Hused; [done|].
  cbn [fold_left]. apply IH.
  destruct (String.eqb cit "") eqn:Hcit; [done|].
  apply String.eqb_neq in Hcit.
  intros [Hx|Hx]%elem_of_union; [|done].
  apply elem_of_singleton in Hx. congruence.
Qed.


(** ** The [author] check *)

Section Author.

Context {E : Env}.

Lemma comma_fold (msg : string) (authors : list string) (st : state) :
  let st' := fold_left
               (fun st a => if (1 <? Py.count "," a)%nat then flawed_name msg st else st)
               authors st in
  subproblems st' =
    (subproblems st
     ++ replicate (length (filter (fun a => (1 < Py.count "," a)%nat) authors)) msg)%list
  /\ counterFlawedNames st' =
       (counterFlawedNames st
        + length (filter (fun a => (1 < Py.count "," a)%nat) authors))%nat
  /\ currentId st' = currentId st
  /\ counterMissingFields st' = counterMissingFields st
  /\ counterWrongTypes st' = counterWrongTypes st
  /\ counterNonUniqueId st' = counterNonUniqueId st.
Proof.
  revert st. induction authors as [|a authors IH]; intros st.
  - cbn. rewrite app_nil_r. repeat split; lia.
  - cbn [fold_left]. rewrite filter_cons.
    destruct (Nat.ltb_spec 1 (Py.count "," a)) as [Hlt|Hge].
    + rewrite decide_True by done.
      destruct (IH (flawed_name msg st)) as (H1 & H2 & H3 & H4 & H5 & H6).
      cbn in H1, H2, H3, H4, H5, H6 |- *.
      rewrite H1, H2, <- app_assoc. repeat split; try done; lia.
    + rewrite decide_False by lia. apply IH.
Qed.

(** X7: the [author] check appends three groups of messages, each
    counted as a flawed name: one message for every name (between
    [ and ]) that has more than one comma; one message when the value
    holds a brace; and one message when neither the normalised last
    name of the first author nor that name without hyphens occurs in
    the identifier.  No other counter moves. *)
Theorem author_check_problems (value : string) (st : state) :
  let key := normalize_lastname (first_author_lastname (Py.split " and " value)) in
  exists braces name : list string,
    subproblems (check_author value st) =
      (subproblems st
       ++ replicate (length (names_with_commas value))
            ("flawed name: author with more than 1 comma found '" ++ value ++ "'")%string
       ++ braces ++ name)%list
    /\ counterFlawedNames (check_author value st) =
         (counterFlawedNames st + length (names_with_commas value)
          + length braces + length name)%nat
    /\ (braces = [] <-> Py.contains "{" value = false /\ Py.contains "}" value = false)
    /\ (length braces <= 1)%nat
    /\ (name = [] <->
        Py.contains key (currentId st) = true
        \/ Py.contains (Py.replace "-" "" key) (currentId st) = true)
    /\ (length name <= 1)%nat
    /\ counterMissingFields (check_author value st) = counterMissingFields st
    /\ counterWrongTypes (check_author value st) = counterWrongTypes st
    /\ counterNonUniqueId (check_author value st) = counterNonUniqueId st.
Proof.
  intros key. unfold check_author. cbv zeta. fold key. unfold names_with_commas.
  set (msg := ("flawed name: author with more than 1 comma found '" ++ value ++ "'")%string).
  destruct (comma_fold msg (Py.split " and " value) st) as (H1 & H2 & H3 & H4 & H5 & H6).
  cbv zeta in H1, H2, H3, H4, H5, H6.
  set (st1 := fold_left _ _ st) in *. clearbody st1.
  set (n := length (filter _ _)) in *. clearbody n.
  exists (if Py.contains "{" value || Py.contains "}" value
          then ["authors field has curly braces {} - not needed"] else []),
         (if negb (Py.contains key (currentId st))
             && negb (Py.contains (Py.replace "-" "" key) (currentId st))
          then [("first authors last name '" ++ key ++ "' not part of bib-key")%string]
          else []).
  destruct (Py.contains "{" value); destruct (Py.contains "}" value); cbn [orb];
    cbn [currentId flawed_name append_subproblem set_subproblems set_counterFlawedNames];
    rewrite H3;
    destruct (Py.contains key (currentId st));
    destruct (Py.contains (Py.replace "-" "" key) (currentId st));
    cbn; rewrite ?H1, ?H2, ?H4, ?H5, ?H6, <- ?app_assoc, ?app_nil_r;
    repeat split; try done; try lia; try tauto; try (intros [? ?]; done);
    try (intros [?|?]; done); try (by left); try (by right).
Qed.

End Author.

Example author_two_commas :
  subproblems (@check_author env2024 "Smith, John, Jr. and Doe, Jane" (entry_with_id "smith2020"))
  = ["flawed name: author with more than 1 comma found 'Smith, John, Jr. and Doe, Jane'"].
Proof. vm_compute. reflexivity. Qed.

Example author_hyphenated :
  subproblems (@check_author env2024 "Jean-Pierre Serre-Tate" (entry_with_id "serretate1970")) = []
  /\ subproblems (@check_author env2024 "Müller, Hans" (entry_with_id "muller1999"))
     = ["first authors last name 'mueller' not part of bib-key"].
Proof. split; vm_compute; reflexivity. Qed.

(** ** Splitting and joining *)

Lemma concat_cons_more (sep x y : string) (l : list string) :
  String.concat sep (x :: y :: l) = x ++ sep ++ String.concat sep (y :: l).
Proof. reflexivity. Qed.

Lemma concat_cons_char (sep : string) (c : ascii) (piece : string) (rest : list string) :
  String.concat sep (String c piece :: rest) = String c (String.concat sep (piece :: rest)).
Proof. destruct rest as [|y rest]; [done|]. by rewrite !concat_cons_more, append_cons. Qed.

Lemma prefix_drop_chars (p s : string) :
  String.prefix p s = true -> s = p ++ drop_chars (String.length p) s.
Proof.
  revert s. induction p as [|c p IH]; intros [|d s]; try done.
  rewrite prefix_cons. destruct (ascii_dec c d) as [->|]; [|done].
  intros H. cbn [String.length drop_chars]. by rewrite append_cons, <- IH.
Qed.

Lemma join_split_from (sep s : string) (k : nat) :
  sep <> "" -> String.concat sep (Py.split_from sep k s) = drop_chars k s.
Proof.
  intros Hsep. revert k. induction s as [|c s IH]; intros k.
  - by destruct k.
  - cbn [Py.split_from]. destruct k as [|k]; [|apply IH].
    destruct (String.prefix sep (String c s)) eqn:Hpre.
    + pose proof (split_from_nonempty sep (String.length sep - 1) s) as Hne.
      specialize (IH (String.length sep - 1)%nat).
      destruct (Py.split_from sep (String.length sep - 1) s) as [|y l]; [done|].
      rewrite concat_cons_more, IH.
      apply prefix_drop_chars in Hpre. destruct sep as [|d sep]; [done|].
      replace (String.length (String d sep) - 1)%nat with (String.length sep)
        by (cbn [String.length]; lia).
      cbn [String.length drop_chars] in Hpre. symmetry. exact Hpre.
    + pose proof (split_from_nonempty sep 0 s) as Hne. specialize (IH 0%nat).
      destruct (Py.split_from sep 0 s) as [|piece rest]; [done|].
      by rewrite concat_cons_char, IH.
Qed.

(** X12: splitting a text at a non-empty separator and joining the
    pieces with the same separator gives the text back (the separator
    must not be empty: Python refuses to split at an empty one).  So
    does replacing a separator by itself. *)
Theorem join_split (sep s : string) :
  sep <> "" ->
  Py.join sep (Py.split sep s) = s /\ Py.replace sep sep s = s.
Proof.
  intros Hsep. unfold Py.replace, Py.join, Py.split.
  by rewrite join_split_from.
Qed.

Lemma join_split_witness :
  Py.join " and " (Py.split " and " "Smith, J and Doe, A")
  = "Smith, J and Doe, A"
  /\ Py.replace " and " " and " "Smith, J and Doe, A" = "Smith, J and Doe, A".
Proof. apply (join_split " and " "Smith, J and Doe, A"). discriminate. Defined.

(** ** Reading the first line of an entry and a line with a field *)

Lemma free_of_cons (c d : ascii) (s : string) :
  Py.free_of (String c "") (String d s) = true ->
  Ascii.eqb d c = false /\ Py.free_of (String c "") s = true.
Proof.
  unfold Py.free_of, Py.char_in. cbn. rewrite orb_false_r.
  intros H%andb_true_iff. destruct H as [H1 H2]. split; [|done].
  by destruct (Ascii.eqb d c).
Qed.

Lemma split_char_free (c : ascii) (a : string) :
  Py.free_of (String c "") a = true -> Py.split (String c "") a = [a].
Proof.
  unfold Py.split. induction a as [|d a IH]; [done|].
  intros [Hd Ha]%free_of_cons. cbn [Py.split_from].
  change (String c "") with (Py.str c). rewrite prefix_single, Hd.
  change (Py.str c) with (String c ""). by rewrite IH.
Qed.

Lemma split_char_head (c : ascii) (a b : string) :
  Py.free_of (String c "") a = true ->
  Py.split (String c "") (a ++ String c b) = a :: Py.split (String c "") b.
Proof.
  unfold Py.split. induction a as [|d a IH].
  - intros _. change ("" ++ String c b) with (String c b). cbn [Py.split_from].
    change (String c "") with (Py.str c). by rewrite prefix_single, Ascii.eqb_refl.
  - intros [Hd Ha]%free_of_cons. rewrite append_cons. cbn [Py.split_from].
    change (String c "") with (Py.str c). rewrite prefix_single, Hd.
    change (Py.str c) with (String c ""). by rewrite IH.
Qed.

Lemma rstrip_app_stripped (chars s x : string) :
  Py.all_chars (fun c => Py.char_in c chars) x = true ->
  Py.rstrip chars (s ++ x) = Py.rstrip chars s.
Proof.
  intros Hx.
  assert (Py.rstrip chars x = "") as Hempty.
  { induction x as [|c x IH]; [done|]. cbn in Hx |- *.
    apply andb_true_iff in Hx as [Hc Hx]. by rewrite IH, Hc. }
  induction s as [|c s IH]; [done|].
  rewrite append_cons. cbn [Py.rstrip]. by rewrite IH.
Qed.

Lemma strip_cons_stripped (chars : string) (c : ascii) (s : string) :
  Py.char_in c chars = true -> Py.strip chars (String c s) = Py.strip chars s.
Proof.
  intros Hc. unfold Py.strip. cbn [Py.rstrip].
  destruct (Py.rstrip chars s) as [|d r]; [by rewrite Hc|].
  cbn [Py.lstrip]. by rewrite Hc.
Qed.



Example entry_head_case_folded :
  exists st', start_entry "@Article{Smith2020," initial = Ok st'
    /\ currentType st' = "article" /\ currentId st' = "smith2020".
Proof. eexists. split; [vm_compute; reflexivity|]. split; reflexivity. Qed.



Example url_value_is_cut :
  value_of "  url = {http://example.org/?a=1}," = "http://example.org/?a".
Proof. reflexivity. Qed.

(** ** The properties above on the files of the examples *)

Lemma one_block_per_entry_line_witness :
  length (problems (state_of (@loop env2024 ∅ requiredFields 1 initial two_entries)))
  = entry_lines two_entries
  /\ length (entries (make_report
                        (state_of (@loop env2024 ∅ requiredFields 1 initial two_entries))))
     = entry_lines two_entries.
Proof.
  apply (@one_block_per_entry_line env2024 requiredFields 1 two_entries).
  vm_compute. reflexivity.
Defined.

Lemma registry_of_identifiers_witness :
  let st := state_of (@loop env2024 ∅ requiredFields 1 initial duplicate_bib) in
  NoDup (citations st)
  /\ Forall (fun id => Py.no_upper id = true) (citations st)
  /\ (length (citations st) + counterNonUniqueId st = entry_lines duplicate_bib)%nat.
Proof.
  apply (@registry_of_identifiers env2024 ∅ requiredFields 1 duplicate_bib).
  vm_compute. reflexivity.
Defined.

Lemma run_only_adds_witness :
  let st := state_of (@loop env2024 ∅ requiredFields 1 initial smith_entry) in
  let st' := state_of (@loop env2024 ∅ requiredFields 1 st (file ["@misc{next2021,"; "}"])) in
  problems st `prefix_of` problems st'
  /\ citations st `prefix_of` citations st'
  /\ (counterMissingFields st <= counterMissingFields st')%nat
  /\ (counterFlawedNames st <= counterFlawedNames st')%nat
  /\ (counterWrongTypes st <= counterWrongTypes st')%nat
  /\ (counterNonUniqueId st <= counterNonUniqueId st')%nat
  /\ lineNo st' = (lineNo st + length (file ["@misc{next2021,"; "}"]))%nat.
Proof.
  apply (@run_only_adds env2024 ∅ requiredFields 1 (file ["@misc{next2021,"; "}"])).
  vm_compute. reflexivity.
Defined.


Lemma pending_entry_is_reported_witness :
  let st := conference_entry in
  let st' := state_of (finalize ∅ requiredFields 1 st) in
  problems st' = (problems st ++ [render_problem st'])%list
  /\ (exists msgs,
        subproblems st' = (subproblems st ++ msgs)%list
        /\ problemCount st' = (problemCount st + length msgs)%nat)
  /\ currentId st' = currentId st /\ fields st' = fields st
  /\ citations st' = citations st
  /\ (requiredFields !! currentType st = None -> currentType st' = currentType st).
Proof.
  apply (@pending_entry_is_reported env2024 ∅ requiredFields 1 conference_entry).
  - vm_compute. reflexivity.
  - vm_compute. reflexivity.
Defined.

Lemma entry_text_is_echoed_witness :
  let st := state_of (@loop env2024 ∅ requiredFields 1 initial (file ["@article{smith2020foo,"])) in
  let st' := state_of (@loop env2024 ∅ requiredFields 1 st smith_lines) in
  completeEntry st' = completeEntry st ++ echoed smith_lines.
Proof.
  apply (@entry_text_is_echoed env2024 ∅ requiredFields 1 smith_lines).
  - repeat constructor.
  - vm_compute. reflexivity.
Defined.


Example observed_fields_of_scenario :
  assigned smith_lines = ["author"; "title"; "journal"; "year"]
  /\ echoed smith_lines
     = "  author = {Smith, John},<br />  title = {Foo},<br />  journal = {J. Bar},<br />  year = {2020}<br />}<br />".
Proof. split; vm_compute; reflexivity. Qed.

(** ** The start of an entry *)

(** X11: the first line of an entry drops the messages still pending
    and starts a new list with at most two: that the identifier is not
    unique, exactly when it is already registered, counted as a
    non-unique id; and that the key is missing, exactly when the
    identifier is empty, counted as a flawed name and quoting the
    number of the line.  The identifier is registered afterwards in
    either case, and no field is recorded yet. *)
Theorem entry_start_problems (line : string) (st st' : state) :
  start_entry line st = Ok st' ->
  exists dup nokey : list string,
    subproblems st' = (dup ++ nokey)%list
    /\ (dup = [] <-> currentId st' ∉ citations st)
    /\ (dup = [] \/ dup = [("non-unique id: '" ++ currentId st' ++ "'")%string])
    /\ (nokey = [] <-> currentId st' <> "")
    /\ (nokey = [] \/
        nokey = [("line " ++ Py.str_of_nat (lineNo st) ++ ": missing bibkey for "
                    ++ currentType st' ++ " found")%string])
    /\ counterNonUniqueId st' = (counterNonUniqueId st + length dup)%nat
    /\ counterFlawedNames st' = (counterFlawedNames st + length nokey)%nat
    /\ currentId st' ∈ citations st'
    /\ fields st' = [].
Proof.
  unfold start_entry. destruct (Py.split "{" line !! 1%nat) as [rest|]; [|done].
  cbv zeta. intros [= <-].
  set (id := Py.strip_ws (Py.lower (Py.rstrip ("," ++ Py.str Py.nl) rest))).
  change (currentId (set_currentId id (set_subproblems [] (set_fields [] st)))) with id.
  change (citations (set_currentId id (set_subproblems [] (set_fields [] st))))
    with (citations st).
  destruct (mem id (citations st)) eqn:Hmem.
  - apply mem_elem_of in Hmem.
    exists [("non-unique id: '" ++ id ++ "'")%string].
    destruct (String.eqb_spec id "") as [Hid|Hid].
    + eexists [_]. cbn. rewrite Hid. cbn. rewrite <- Hid.
      repeat split; try done; try lia; try (by right); by intros [].
    + exists []. cbn. apply String.eqb_neq in Hid as Hid'. rewrite Hid'. cbn.
      repeat split; try done; try lia; try (by right); try (by left); by intros [].
  - assert (id ∉ citations st) as Hnotin by (rewrite <- mem_elem_of; congruence).
    exists [].
    destruct (String.eqb_spec id "") as [Hid|Hid].
    + eexists [_]. cbn. rewrite Hid. cbn. rewrite <- Hid.
      repeat split; try done; try lia; try (by right); try (by left);
        try (by intros []); try (apply elem_of_app; right; by constructor).
    + exists []. cbn. apply String.eqb_neq in Hid as Hid'. rewrite Hid'. cbn.
      repeat split; try done; try lia; try (by right); try (by left);
        try (apply elem_of_app; right; by constructor).
Qed.

Lemma entry_start_problems_witness :
  let st := state_of (@loop env2024 ∅ requiredFields 1 initial (file ["@misc{dup,"; "}"])) in
  let st' := state_of (start_entry "@misc{dup," (set_lineNo 3 st)) in
  exists dup nokey : list string,
    subproblems st' = (dup ++ nokey)%list
    /\ (dup = [] <-> currentId st' ∉ citations (set_lineNo 3 st))
    /\ (dup = [] \/ dup = [("non-unique id: '" ++ currentId st' ++ "'")%string])
    /\ (nokey = [] <-> currentId st' <> "")
    /\ (nokey = [] \/
        nokey = [("line " ++ Py.str_of_nat (lineNo (set_lineNo 3 st))
                    ++ ": missing bibkey for " ++ currentType st' ++ " found")%string])
    /\ counterNonUniqueId st' = (counterNonUniqueId (set_lineNo 3 st) + length dup)%nat
    /\ counterFlawedNames st' = (counterFlawedNames (set_lineNo 3 st) + length nokey)%nat
    /\ currentId st' ∈ citations st'
    /\ fields st' = [].
Proof.
  apply (entry_start_problems "@misc{dup,").
  vm_compute. reflexivity.
Defined.

Example missing_key_is_registered :
  exists st, @loop env2024 ∅ requiredFields 1 initial (file ["@misc{,"; "}"; "@misc{,"]) = Ok st
    /\ subproblems st = ["non-unique id: ''"; "line 3: missing bibkey for misc found"]
    /\ citations st = [""].
Proof. eexists. split; [vm_compute; reflexivity|]. split; reflexivity. Qed.

(** ** Entries outside the usage set *)

Section OutOfScope.

Context {E : Env}.
Variable used_cits : gset string.
Variable rf : gmap string requirement.
Variable fuel : nat.

(** X15: in a run from the initial variables, an entry outside the
    usage set has no field recorded.  The checks on [url], [urldate]
    and [doi] of lines 159-167, which are not guarded by the usage set,
    therefore find nothing: when the next entry starts, all that
    happens for such an entry is that its pending messages are
    dropped. *)
Theorem out_of_scope_entry_has_no_fields (lines : list string) (st : state) :
  loop used_cits rf fuel initial lines = Ok st ->
  in_scope used_cits st = false ->
  fields st = [] /\ finalize used_cits rf fuel st = Ok (set_subproblems [] st).
Proof.
  assert (Hgen : forall lines st0 st,
             loop used_cits rf fuel st0 lines = Ok st ->
             (in_scope used_cits st0 = false -> fields st0 = []) ->
             in_scope used_cits st = false -> fields st = []).
  { clear lines st. induction lines as [|line lines IH]; intros st0 st Hloop Hinv.
    - by injection Hloop as <-.
    - apply loop_cons in Hloop as (st1 & Hstep & Hloop).
      apply (IH _ _ Hloop). intros Hscope1.
      destruct (starts_entry line) eqn:Hat.
      + destruct (step_entry_line _ _ _ _ _ _ Hat Hstep) as (st2 & _ & Hstart).
        by apply start_entry_spec in Hstart as (_ & _ & ? & _).
      + rewrite step_other_line in Hstep by done.
        apply entry_contents_spec in Hstep as (A1 & _ & _ & _ & _ & _ & A7 & _).
        cbn in A1, A7.
        change (in_scope used_cits (set_lineNo (lineNo st0 + 1) st0))
          with (in_scope used_cits st0) in A7.
        rewrite (in_scope_same_id used_cits st0 st1) in Hscope1 by done.
        rewrite Hscope1 in A7. cbn in A7. rewrite A7. by apply Hinv. }
  intros Hloop Hscope.
  assert (fields st = []) as Hfields by (by apply (Hgen _ _ _ Hloop)).
  split; [done|].
  unfold finalize, check_required. rewrite Hscope, outcome_bind_ok.
  unfold check_urldate.
  change (fields (set_subproblems [] st)) with (fields st). rewrite Hfields.
  cbn [mem existsb andb]. unfold check_url_doi.
  change (fields (set_subproblems [] st)) with (fields st). rewrite Hfields.
  cbn [mem existsb andb]. unfold append_problem.
  change (in_scope used_cits (set_subproblems [] st)) with (in_scope used_cits st).
  by rewrite Hscope.
Qed.

End OutOfScope.

Lemma out_of_scope_entry_has_no_fields_witness :
  let st := state_of (@loop env2024 {["other"]} requiredFields 1 initial smith_entry) in
  fields st = [] /\ finalize {["other"]} requiredFields 1 st = Ok (set_subproblems [] st).
Proof.
  apply (@out_of_scope_entry_has_no_fields env2024 {["other"]} requiredFields 1 smith_entry).
  - vm_compute. reflexivity.
  - vm_compute. reflexivity.
Defined.

(** ** The title shown for an entry *)

Section Title.

Context {E : Env}.
Variable used_cits : gset string.
Variable rf : gmap string requirement.
Variable fuel : nat.

Lemma check_field_title (line : string) (st st' : state) :
  check_field line st = Ok st' ->
  currentTitle st' =
    if String.eqb (field_of line) "title"
    then Py.remove_chars "}{" (value_of line) else currentTitle st.
Proof.
  unfold check_field. cbv zeta. fold (field_of line). fold (value_of line).
  set (field := field_of line). set (value := value_of line).
  set (st0 := set_fields _ st).
  set (st1 := check_null _ _ _).
  assert (H1 : currentTitle st1 = currentTitle st) by (unfold st1, check_null; by case_ifs).
  set (st2 := if String.eqb field "author" then _ else _).
  assert (H2 : currentTitle st2 = currentTitle st).
  { unfold st2. destruct (String.eqb field "author"); [|done].
    unfold check_author. cbv zeta. case_ifs; cbn; rewrite <- H1;
      (apply fold_left_keeps; intros s a; by case_ifs). }
  set (st3 := if String.eqb field "year" then _ else _).
  assert (H3 : currentTitle st3 = currentTitle st).
  { unfold st3. destruct (String.eqb field "year"); [|done].
    unfold check_year. cbv zeta. by case_ifs. }
  set (st4 := if String.eqb field "pages" then _ else _).
  assert (H4 : currentTitle st4 = currentTitle st)
    by (unfold st4, check_pages; by case_ifs).
  set (st5 := if String.eqb field "urldate" then _ else _).
  assert (H5 : currentTitle st5 = currentTitle st)
    by (unfold st5, check_urldate_format; by case_ifs).
  set (st6 := if String.eqb field "citeulike-article-id" then _ else _).
  assert (H6 : currentTitle st6 = currentTitle st) by (unfold st6; by case_ifs).
  set (st7 := if String.eqb field "title" then _ else _).
  assert (H7 : currentTitle st7 =
               if String.eqb field "title" then Py.remove_chars "}{" value
               else currentTitle st)
    by (unfold st7; by destruct (String.eqb field "title")).
  clearbody st7. clear - H7.
  unfold check_doi. destruct (String.eqb field "doi"); [destruct (Py.startswith value "http")|];
    cbn; intros [= <-]; unfold check_journal, check_proceedings; by case_ifs.
Qed.

Lemma finalize_title (st st' : state) :
  finalize used_cits rf fuel st = Ok st' -> currentTitle st' = currentTitle st.
Proof.
  unfold finalize, check_required, append_problem, check_url_doi, check_urldate.
  destruct (in_scope used_cits st).
  - destruct (bool_decide _).
    + destruct (resolve_type rf fuel (currentType st)) as [[t required]| |]; cbn; [|done..].
      intros [= <-]. case_ifs; cbn;
        (unfold missing_fields;
         rewrite (fold_left_keeps currentTitle); [done|intros s a; by case_ifs]).
    + cbn. intros [= <-]. by case_ifs.
  - cbn. intros [= <-]. by case_ifs.
Qed.

Lemma start_entry_title (line : string) (st st' : state) :
  start_entry line st = Ok st' -> currentTitle st' = currentTitle st.
Proof.
  unfold start_entry. destruct (Py.split "{" line !! 1%nat); [|done].
  cbv zeta. intros [= <-]. by case_ifs.
Qed.


End Title.


(** The block of the entry [doe2021], which has no title, shows the
    title of the entry before it. *)
Example stale_title_in_block :
  exists r,
    @main env2024 1 requiredFields None
      (smith_entry ++ file ["@misc{doe2021,"; "  year = {2021},"; "}"; "@misc{end,"]) = Ok r
    /\ existsb (Py.contains "<h2>doe2021 (misc)</h2>") (entries r) = true
    /\ forallb (fun block =>
                  negb (Py.contains "<h2>doe2021 (misc)</h2>" block)
                  || Py.contains "<div class='reference'>Foo</div>" block) (entries r) = true.
Proof. eexists. split; [vm_compute; reflexivity|]. split; vm_compute; reflexivity. Qed.
